(** * Signal engines of the trading bot: RSI+ADX and mean reversion

  Shallow embedding of [src/strategies/rsi_strategy.py] and
  [src/strategies/mean_reversion_strategy.py], and of the kline and symbol
  fetches of [src/data_sources/mexc_api.py].

  Numbers.  The Python code computes on binary64 floats (and numpy
  float64).  The embedding computes on exact rationals [Q]: every
  arithmetic operation is the exact one, finite prices only, and equality
  of computed values is [==] ([Qeq]).  The few places where the Python
  semantics leaves the rationals are written out: [None] passed where a
  number is expected raises [TypeError], an exception of a collaborator is
  a [Raise], a numpy division by zero yields an infinity or NaN
  ([Np.float64]).  [np.mean] of an empty slice (NaN in numpy) only arises
  for [period = 0], which no caller uses; results about a general
  [period] are stated for [1 <= period]. *)

From Stdlib Require Import String QArith Qabs Qround ZArith List Bool Lia Lqa.
From Stdlib Require DecimalString DecimalZ DecimalPos.
Import ListNotations.

Local Open Scope Q_scope.

(** ** Python and numpy primitives *)

Module Py.

(** Python exceptions that the modelled code can meet. *)
Inductive exn : Type :=
| TypeError          (* arithmetic on [None] *)
| IndexError         (* [l[-1]] on an empty sequence *)
| CollaboratorError (msg : string).   (* raised by get_klines / analyze_volatility *)

(** Outcome of a Python call: a value or a raised exception. *)
Inductive result (A : Type) : Type :=
| Ok (a : A)
| Raise (e : exn).
Arguments Ok {A} a.
Arguments Raise {A} e.

Definition bind {A B} (m : result A) (k : A -> result B) : result B :=
  match m with
  | Ok a => k a
  | Raise e => Raise e
  end.

(** [try: body / except Exception as e: handler e] *)
Definition try_except {A} (body : result A) (handler : exn -> result A)
  : result A :=
  match body with
  | Ok a => Ok a
  | Raise e => handler e
  end.

Definition Qltb (x y : Q) : bool := negb (Qle_bool y x).

(** [max(a, b)]: keeps [a] unless [b > a].  [min(a, b)]: keeps [a] unless
    [b < a]. *)
Definition max (a b : Q) : Q := if Qltb a b then b else a.
Definition min (a b : Q) : Q := if Qltb b a then b else a.
Definition max3 (a b c : Q) : Q := max (max a b) c.

Definition maxZ (a b : Z) : Z := if (a <? b)%Z then b else a.
Definition minZ (a b : Z) : Z := if (b <? a)%Z then b else a.

(** [int(x)] on a float: truncation toward zero. *)
Definition int (x : Q) : Z := Z.quot (Qnum x) (Zpos (Qden x)).

(** [len(l)] as a number. *)
Definition len {A} (l : list A) : Q := inject_Z (Z.of_nat (length l)).

Definition of_nat (n : nat) : Q := inject_Z (Z.of_nat n).

(** [sum(l)] *)
Definition sum (l : list Q) : Q := fold_left Qplus l 0.

(** [l[-n:]] for [n >= 0]: the last [n] elements, the whole list when it
    is shorter, and (the Python corner) the whole list for [n = 0]. *)
Definition lastn {A} (n : nat) (l : list A) : list A :=
  match n with
  | O => l
  | _ => skipn (length l - n) l
  end.

(** [l[-1]] *)
Definition last_item {A} (l : list A) : result A :=
  match rev l with
  | x :: _ => Ok x
  | [] => Raise IndexError
  end.

(** Consecutive pairs [(l[i-1], l[i])] for [i in range(1, len(l))]. *)
Fixpoint pairs {A} (l : list A) : list (A * A) :=
  match l with
  | a :: (b :: _) as t => (a, b) :: pairs t
  | _ => []
  end.

End Py.

Module Np.

(** [np.mean(l)] on a non-empty list. *)
Definition mean (l : list Q) : Q := Py.sum l / Py.len l.

(** [np.diff(a)] *)
Definition diff (a : list Q) : list Q :=
  map (fun p => snd p - fst p) (Py.pairs a).

(** [np.clip(x, lo, hi)] = minimum(maximum(x, lo), hi) *)
Definition clip (x lo hi : Q) : Q := Py.min (Py.max x lo) hi.

(** A numpy float64 division does not raise on a zero divisor: it warns and
    yields an infinity or NaN. *)
Inductive float64 : Type :=
| Finite (q : Q)
| PosInf
| NegInf
| NaN.

Definition truediv (x y : Q) : float64 :=
  if Qeq_bool y 0 then
    if Qeq_bool x 0 then NaN
    else if Py.Qltb 0 x then PosInf else NegInf
  else Finite (x / y).

(** [a < b] for a float64 [a] and a finite [b]; false on NaN. *)
Definition lt (a : float64) (b : Q) : bool :=
  match a with
  | Finite q => Py.Qltb q b
  | NegInf => true
  | PosInf | NaN => false
  end.

End Np.

(** ** Candles *)

(** One kline as [MEXCAPI.get_klines] builds it (mexc_api.py, lines 85-92). *)
Record kline : Type := mk_kline {
timestamp : Z;
open : Q;
high : Q;
low : Q;
close : Q;
volume : Q
}.

(** ** RSIStrategy (rsi_strategy.py) *)

Module RSIStrategy.

Import Py.

Definition base_period : nat := 14.
Definition min_order_size : Q := 1 # 1000.

(** [100.0 if avg_gain > 0 else 50.0] *)
Definition zero_loss_rsi (avg_gain : Q) : Q :=
  if Qltb 0 avg_gain then 100 else 50.

(** Body of the Wilder loop, lines 36-42.  State: (avg_gain, avg_loss, rsi);
    input: (gains[i], losses[i]). *)
Definition rsi_step (period : nat) (st : Q * Q * Q) (gl : Q * Q) : Q * Q * Q :=
  let '(avg_gain, avg_loss, _) := st in
  let avg_gain := (avg_gain * (of_nat period - 1) + fst gl) / of_nat period in
  let avg_loss := (avg_loss * (of_nat period - 1) + snd gl) / of_nat period in
  if Qeq_bool avg_loss 0 then (avg_gain, avg_loss, zero_loss_rsi avg_gain)
  else
    let rs := avg_gain / avg_loss in
    (avg_gain, avg_loss, 100 - (100 / (1 + rs))).

(** [calculate_rsi], lines 17-44. *)
Definition calculate_rsi (closes : list Q) (period : nat) : Q :=
  if (length closes <? period + 1)%nat then 50
  else
    let deltas := Np.diff closes in
    let gains := map (fun d => if Qltb 0 d then d else 0) deltas in
    let losses := map (fun d => if Qltb d 0 then - d else 0) deltas in
    let avg_gain := Np.mean (firstn period gains) in
    let avg_loss := Np.mean (firstn period losses) in
    if Qeq_bool avg_loss 0 then zero_loss_rsi avg_gain
    else
      let rs := avg_gain / avg_loss in
      let rsi := 100 - (100 / (1 + rs)) in
      let '(_, _, rsi) :=
        fold_left (rsi_step period)
                  (combine (skipn period gains) (skipn period losses))
                  (avg_gain, avg_loss, rsi) in
      rsi.

(** *** calculate_adx, lines 46-107 *)

(** Lines 62, 65-68: true range and directional movement of one
    consecutive pair of klines. *)
Definition true_range (prev cur : kline) : Q :=
  max3 (high cur - low cur)
       (Qabs (high cur - close prev))
       (Qabs (low cur - close prev)).

Definition plus_dm_of (prev cur : kline) : Q :=
  let up_move := high cur - high prev in
  let down_move := low prev - low cur in
  if Qltb down_move up_move && Qltb 0 up_move then up_move else 0.

Definition minus_dm_of (prev cur : kline) : Q :=
  let up_move := high cur - high prev in
  let down_move := low prev - low cur in
  if Qltb up_move down_move && Qltb 0 down_move then down_move else 0.

Definition atr_floor : Q := 1 # 10000000000.
Definition di_bound : Q := 100000.

(** Lines 81-84 and 98-101. *)
Definition dx_of (plus_di minus_di : Q) : Q :=
  if Qeq_bool (plus_di + minus_di) 0 then 0
  else 100 * Qabs (plus_di - minus_di) / (plus_di + minus_di).

(** The variables that live across the iterations of the loop at line 87. *)
Record adx_acc : Type := mk_adx_acc {
  atr : Q;
  plus_di : Q;
  minus_di : Q;
  adx_values : list Q
}.

(** Seed, lines 75-86. *)
Definition adx_seed (period : nat) (tr_values plus_dm minus_dm : list Q)
  : adx_acc :=
  let atr := Np.mean (firstn period tr_values) in
  let atr := max atr atr_floor in
  let plus_di := 100 * Np.mean (firstn period plus_dm) / atr in
  let minus_di := 100 * Np.mean (firstn period minus_dm) / atr in
  let plus_di := Np.clip plus_di (- di_bound) di_bound in
  let minus_di := Np.clip minus_di (- di_bound) di_bound in
  mk_adx_acc atr plus_di minus_di [dx_of plus_di minus_di].

(** Loop body, lines 88-102; input (tr_values[i], (plus_dm[i], minus_dm[i])). *)
Definition adx_step (period : nat) (st : adx_acc) (x : Q * (Q * Q)) : adx_acc :=
  let '(tr_i, (plus_dm_i, minus_dm_i)) := x in
  let atr := (atr st * (of_nat period - 1) + tr_i) / of_nat period in
  let atr := max atr atr_floor in
  let prev_plus_di := plus_di st in
  let prev_minus_di := minus_di st in
  let plus_di := (prev_plus_di * (of_nat period - 1) + plus_dm_i) / of_nat period in
  let minus_di := (prev_minus_di * (of_nat period - 1) + minus_dm_i) / of_nat period in
  let plus_di := 100 * plus_di / atr in
  let minus_di := 100 * minus_di / atr in
  let plus_di := Np.clip plus_di (- di_bound) di_bound in
  let minus_di := Np.clip minus_di (- di_bound) di_bound in
  mk_adx_acc atr plus_di minus_di (adx_values st ++ [dx_of plus_di minus_di]).

Definition tr_values_of (klines : list kline) : list Q :=
  map (fun p => true_range (fst p) (snd p)) (pairs klines).
Definition plus_dm_list (klines : list kline) : list Q :=
  map (fun p => plus_dm_of (fst p) (snd p)) (pairs klines).
Definition minus_dm_list (klines : list kline) : list Q :=
  map (fun p => minus_dm_of (fst p) (snd p)) (pairs klines).

(** The accumulator when the loop of line 87 has finished; [None] when the
    function has returned 0.0 early (lines 48-49, 72-73). *)
Definition adx_loop (klines : list kline) (period : nat) : option adx_acc :=
  if (length klines <? period + 1)%nat then None
  else
    let tr_values := tr_values_of klines in
    let plus_dm := plus_dm_list klines in
    let minus_dm := minus_dm_list klines in
    if (length tr_values <? period)%nat then None
    else
      Some (fold_left (adx_step period)
              (combine (skipn period tr_values)
                 (combine (skipn period plus_dm) (skipn period minus_dm)))
              (adx_seed period tr_values plus_dm minus_dm)).

(** Lines 104-107.  [np.isnan] is never true of a rational. *)
Definition calculate_adx (klines : list kline) (period : nat) : Q :=
  match adx_loop klines period with
  | None => 0
  | Some st =>
      match adx_values st with
      | [] => 0
      | _ => Np.mean (lastn period (adx_values st))
      end
  end.

(** *** generate_signal, lines 109-157 *)

(** [volatility * 10] where [volatility] may be [None]. *)
Definition mul_volatility (volatility : option Q) (k : Q) : result Q :=
  match volatility with
  | Some v => Ok (v * k)
  | None => Raise TypeError
  end.

(** Lines 122-125. *)
Definition adaptive_period (volatility : option Q) : Z :=
  match volatility with
  | Some v =>
      let period := int (of_nat base_period * (1 - v)) in
      maxZ 5 (minZ 20 period)
  | None => Z.of_nat base_period
  end.

(** Lines 132-138: each threshold is computed from [volatility * 10] and
    then clamped by [max(lo, min(hi, .))]. *)
Definition overbought_threshold (v10 : Q) : Q := max 50 (min 80 (70 - v10)).
Definition oversold_threshold (v10 : Q) : Q := max 20 (min 50 (30 + v10)).
Definition adx_threshold (v10 : Q) : Q := max 10 (min 30 (15 + v10)).

(** Lines 140-144. *)
Definition decide (rsi adx overbought oversold adx_thr : Q) : string :=
  if Qltb overbought rsi && Qltb adx_thr adx then "sell"%string
  else if Qltb rsi oversold && Qltb adx_thr adx then "buy"%string
  else "hold"%string.

(** Line 148. *)
Definition order_quantity (last_close : Q) : Np.float64 :=
  Np.truediv (1 # 10) last_close.

(** Lines 147-151. *)
Definition min_order_veto (signal : string) (closes : list Q) : result string :=
  if negb (String.eqb signal "hold") then
    bind (last_item closes) (fun c =>
      let quantity := order_quantity c in
      if Np.lt quantity min_order_size then Ok "hold"%string else Ok signal)
  else Ok signal.

(** [get_klines] is the outcome of [self.market_data.get_klines(...)];
    [symbol], [timeframe], [limit] and [exchange_name] only reach that call
    and the log. *)
Definition generate_signal (get_klines : result (list kline))
           (volatility : option Q) : result string :=
  try_except
    (bind get_klines (fun klines =>
       match klines with
       | [] => Ok "hold"%string
       | _ =>
         let closes := map close klines in
         if (length closes <? base_period + 1)%nat then Ok "hold"%string
         else
           let period := adaptive_period volatility in
           let rsi := calculate_rsi closes (Z.to_nat period) in
           let adx := calculate_adx klines 14 in
           bind (mul_volatility volatility 10) (fun v10_a =>
           bind (mul_volatility volatility 10) (fun v10_b =>
           bind (mul_volatility volatility 10) (fun v10_c =>
           let overbought := overbought_threshold v10_a in
           let oversold := oversold_threshold v10_b in
           let adx_thr := adx_threshold v10_c in
           let signal := decide rsi adx overbought oversold adx_thr in
           min_order_veto signal closes)))
       end))
    (fun _ => Ok "hold"%string).

End RSIStrategy.

(** ** MeanReversionStrategy (mean_reversion_strategy.py) *)

Module MeanReversionStrategy.

Import Py.

Definition lookback_period : nat := 20.

Section WithSqrt.

(** [x ** 0.5] on floats.  No rational function is the exact square
    root, so the embedding takes it as a parameter; nothing below
    depends on what it computes. *)
Variable pow_half : Q -> Q.

(** Lines 15-47.  [get_klines] and [analyze_volatility] are the outcomes
    of the calls to the two collaborators; the second is only looked at
    when line 29 is reached. *)
Definition generate_signal (get_klines : result (list kline))
           (analyze_volatility : result Q) : result string :=
  try_except
    (bind get_klines (fun klines =>
       if (length klines <? lookback_period)%nat then Ok "hold"%string
       else
         let closes := map close (lastn lookback_period klines) in
         let mean := sum closes / len closes in
         let std :=
           pow_half (sum (map (fun x => (x - mean) ^ 2) closes) / len closes) in
         bind analyze_volatility (fun symbol_volatility =>
         let threshold := 2 * (1 + symbol_volatility) in
         let upper_bound := mean + threshold * std in
         let lower_bound := mean - threshold * std in
         bind (last_item klines) (fun k =>
         let price := close k in
         Ok (if Qltb upper_bound price then "sell"%string
             else if Qltb price lower_bound then "buy"%string
             else "hold"%string)))))
    (fun e => Raise e).

End WithSqrt.

(** An executable stand-in for [x ** 0.5]: the square root to six decimal
    places, rounded down. *)
Definition sqrt6 (x : Q) : Q :=
  Z.sqrt (Qfloor (x * 1000000000000)) # 1000000.

End MeanReversionStrategy.

(** ** The specification's reading, for comparison with the code *)

Module Spec.

Import Py.

(** Inclusive clamp of [x] into [[lo, hi]]. *)
Definition clamp (x lo hi : Q) : Q :=
  if Qltb x lo then lo else if Qltb hi x then hi else x.

Definition clampZ (x lo hi : Z) : Z :=
  if (x <? lo)%Z then lo else if (hi <? x)%Z then hi else x.



(** Truncation toward zero, by cases on the sign. *)
Definition trunc (x : Q) : Z :=
  if Qle_bool 0 x then Qfloor x else Qceiling x.

(** Section 4.2 as C4 reads it: the accumulators carried from one TR index
    to the next are the Wilder-smoothed [atr] and the Wilder-smoothed
    plus/minus DM; each directional index is derived from them. *)
Record dm_acc : Type := mk_dm_acc {
  s_atr : Q;
  s_plus_dm : Q;
  s_minus_dm : Q;
  s_dx_history : list Q
}.

Definition di_of (smoothed_dm atr : Q) : Q :=
  Np.clip (100 * smoothed_dm / atr)
          (- RSIStrategy.di_bound) RSIStrategy.di_bound.

Definition dm_seed (period : nat) (tr_values plus_dm minus_dm : list Q)
  : dm_acc :=
  let atr := max (Np.mean (firstn period tr_values)) RSIStrategy.atr_floor in
  let sp := Np.mean (firstn period plus_dm) in
  let sm := Np.mean (firstn period minus_dm) in
  mk_dm_acc atr sp sm [RSIStrategy.dx_of (di_of sp atr) (di_of sm atr)].

Definition dm_step (period : nat) (st : dm_acc) (x : Q * (Q * Q)) : dm_acc :=
  let '(tr_i, (plus_dm_i, minus_dm_i)) := x in
  let atr :=
    max ((s_atr st * (of_nat period - 1) + tr_i) / of_nat period)
        RSIStrategy.atr_floor in
  let sp := (s_plus_dm st * (of_nat period - 1) + plus_dm_i) / of_nat period in
  let sm := (s_minus_dm st * (of_nat period - 1) + minus_dm_i) / of_nat period in
  mk_dm_acc atr sp sm
    (s_dx_history st ++ [RSIStrategy.dx_of (di_of sp atr) (di_of sm atr)]).

Definition compute_adx (klines : list kline) (period : nat) : Q :=
  if (length klines <? period + 1)%nat then 0
  else
    let tr_values := RSIStrategy.tr_values_of klines in
    let plus_dm := RSIStrategy.plus_dm_list klines in
    let minus_dm := RSIStrategy.minus_dm_list klines in
    if (length tr_values <? period)%nat then 0
    else
      let st :=
        fold_left (dm_step period)
          (combine (skipn period tr_values)
             (combine (skipn period plus_dm) (skipn period minus_dm)))
          (dm_seed period tr_values plus_dm minus_dm) in
      Np.mean (lastn period (s_dx_history st)).



(** Every consecutive pair of closes goes up. *)
Definition strictly_increasing (closes : list Q) : Prop :=
  Forall (fun p => fst p < snd p) (pairs closes).

(** All highs, lows and closes equal the one price [p]. *)
Definition constant_price (p : Q) (klines : list kline) : Prop :=
  Forall (fun k => high k == p /\ low k == p /\ close k == p) klines.

End Spec.

(** ** Invariants used in the proofs *)

(** What the ADX accumulator looks like while no directional movement has
    been seen. *)
Definition adx_quiet (st : RSIStrategy.adx_acc) : Prop :=
  RSIStrategy.plus_di st == 0 /\ RSIStrategy.minus_di st == 0 /\
  Forall (fun x => x = 0) (RSIStrategy.adx_values st).

(** ** Sample inputs *)

Module Samples.

(** A kline with the given high, low and close. *)
Definition candle (h l c : Q) : kline := mk_kline 0 c h l c 0.

(** A kline whose prices all equal [p]. *)
Definition flat (p : Q) : kline := candle p p p.

Definition flat15 : list kline := repeat (flat 100) 15.

(** [closes = [100]*19 + [200]] of section 8. *)
Definition spike20 : list kline := repeat (flat 100) 19 ++ [flat 200].

(** Four klines with an up move, a down move and an up move. *)
Definition zigzag4 : list kline :=
  [candle 10 8 9; candle 12 9 11; candle 11 7 8; candle 13 9 12].

(** The same moves after fourteen quiet klines, for [period = 14]. *)
Definition zigzag17 : list kline := repeat (candle 10 8 9) 14 ++ tl zigzag4.

(** [n] klines whose close climbs (falls) by one from [base], each with
    high = close + 1 and low = close - 1. *)
Definition rally (base : Q) (n : nat) : list kline :=
  map (fun i => let c := base + inject_Z (Z.of_nat i) in candle (c + 1) (c - 1) c)
      (seq 0 n).

Definition slump (base : Q) (n : nat) : list kline :=
  map (fun i => let c := base - inject_Z (Z.of_nat i) in candle (c + 1) (c - 1) c)
      (seq 0 n).


End Samples.

(** ** MEXCAPI (data_sources/mexc_api.py)

    The kline source behind the engines.  Its effects are explicit: the
    cache directory is a map from paths to files, and what the network and
    the disk do during a call are arguments of the call.  Every handler of
    the class is [except Exception], so a failing operation is an [option]
    here: [None] stands for any raised exception. *)

Module MEXCAPI.

(** [str(limit)], as the f-string of line 62 formats an int. *)
Definition str_int (z : Z) : string :=
  DecimalString.NilZero.string_of_int (Z.to_int z).

Definition starts_with_slash (s : string) : bool :=
  match s with
  | String c _ => String.eqb (String c EmptyString) "/"
  | EmptyString => false
  end.

Fixpoint ends_with_slash (s : string) : bool :=
  match s with
  | EmptyString => false
  | String c EmptyString => String.eqb (String c EmptyString) "/"
  | String _ rest => ends_with_slash rest
  end.

(** [os.path.join(a, b)] on POSIX: an absolute [b] replaces [a]. *)
Definition path_join (a b : string) : string :=
  if starts_with_slash b then b
  else if (a =? "")%string || ends_with_slash a then (a ++ b)%string
  else (a ++ "/" ++ b)%string.

(** Line 27. *)
Definition cache_dir : string := "/root/trading_bot/cache/mexc_klines".

(** Line 62. *)
Definition cache_file (symbol timeframe : string) (limit : Z) : string :=
  path_join cache_dir
    (symbol ++ "_" ++ timeframe ++ "_" ++ str_int limit ++ ".pkl")%string.

(** What a path of the cache directory holds: a pickle of a kline list, or
    bytes that [pickle.load] rejects. *)
Inductive file : Type :=
| Pickled (klines : list kline)
| Unreadable.

Definition filesystem : Type := string -> option file.

Definition fs_put (path : string) (f : file) (fs : filesystem) : filesystem :=
  fun p => if String.eqb p path then Some f else fs p.

(** Lines 65-72: the file exists and unpickles, or the call goes on to the
    API. *)
Definition load_cache (path : string) (fs : filesystem) : option (list kline) :=
  match fs path with
  | Some (Pickled klines) => Some klines
  | Some Unreadable => None
  | None => None
  end.

(** What the disk does at lines 99-100: the dump succeeds; [open] raises and
    nothing is touched; or [open] has truncated the file and the dump
    raises. *)
Inductive write_outcome : Type :=
| Written
| OpenFailed
| DumpFailed.

(** Lines 98-103. *)
Definition save_cache (path : string) (klines : list kline)
           (w : write_outcome) (fs : filesystem) : filesystem :=
  match w with
  | Written => fs_put path (Pickled klines) fs
  | OpenFailed => fs
  | DumpFailed => fs_put path Unreadable fs
  end.

Section WithJson.

(** The values of the decoded JSON response, with Python's [int(x)],
    [float(x)] and [x == '1'] on them. *)
Variable json : Type.
Variable to_int : json -> option Z.
Variable to_float : json -> option Q.
Variable is_one : json -> bool.

(** [conv(row[i])] *)
Definition field {A} (row : list json) (i : nat) (conv : json -> option A)
  : option A :=
  match nth_error row i with
  | Some x => conv x
  | None => None
  end.

(** Lines 85-92, one row of the response. *)
Definition parse_kline (row : list json) : option kline :=
  match field row 0 to_int with
  | None => None
  | Some t =>
  match field row 1 to_float with
  | None => None
  | Some o =>
  match field row 2 to_float with
  | None => None
  | Some h =>
  match field row 3 to_float with
  | None => None
  | Some l =>
  match field row 4 to_float with
  | None => None
  | Some c =>
  match field row 5 to_float with
  | None => None
  | Some v => Some (mk_kline t o h l c v)
  end end end end end end.

(** Lines 84-94, the list comprehension. *)
Fixpoint parse_klines (data : list (list json)) : option (list kline) :=
  match data with
  | [] => Some []
  | row :: rest =>
      match parse_kline row with
      | None => None
      | Some k =>
          match parse_klines rest with
          | None => None
          | Some ks => Some (k :: ks)
          end
      end
  end.

(** [get_klines], lines 59-108.  [api] is the decoded response of the GET
    request ([None] when the request or the decoding raised); the result is
    the returned list and the cache directory after the call. *)
Definition get_klines (symbol timeframe : string) (limit : Z)
           (fs : filesystem) (api : option (list (list json)))
           (w : write_outcome) : list kline * filesystem :=
  let cache_file := cache_file symbol timeframe limit in
  match load_cache cache_file fs with
  | Some klines => (klines, fs)
  | None =>
      match api with
      | None => ([], fs)
      | Some data =>
          match parse_klines data with
          | None => ([], fs)
          | Some klines => (klines, save_cache cache_file klines w fs)
          end
      end
  end.

(** A JSON object, as the dict Python decodes it to. *)
Definition dict : Type := list (string * json).

Fixpoint dict_get (d : dict) (key : string) : option json :=
  match d with
  | [] => None
  | (k, v) :: rest => if String.eqb k key then Some v else dict_get rest key
  end.

(** Line 52, one entry of the comprehension: the condition reads
    ['status'], and only an entry that passes has ['symbol'] read.
    [None]: a key is missing; [Some None]: filtered out. *)
Definition select_symbol (entry : dict) : option (option json) :=
  match dict_get entry "status" with
  | None => None
  | Some st =>
      if is_one st then
        match dict_get entry "symbol" with
        | None => None
        | Some s => Some (Some s)
        end
      else Some None
  end.

(** An entry that the comprehension keeps, with the symbol it contributes:
    its status is '1' and it has a 'symbol' key. *)
Definition listed (entry : dict) (s : json) : Prop :=
  exists st, dict_get entry "status" = Some st /\ is_one st = true /\
             dict_get entry "symbol" = Some s.

Fixpoint collect_symbols (entries : list dict) : option (list json) :=
  match entries with
  | [] => Some []
  | entry :: rest =>
      match select_symbol entry with
      | None => None
      | Some kept =>
          match collect_symbols rest with
          | None => None
          | Some l =>
              Some (match kept with Some s => s :: l | None => l end)
          end
      end
  end.

(** [get_symbols], lines 46-57.  [api] is [data['symbols']] ([None] when the
    request raised or the key is missing). *)
Definition get_symbols (api : option (list dict)) : list json :=
  match api with
  | None => []
  | Some entries =>
      match collect_symbols entries with
      | None => []
      | Some symbols => symbols
      end
  end.

End WithJson.

End MEXCAPI.

(** ** Shapes of input series *)

Module Shapes.

(** Every consecutive pair of closes goes down. *)
Definition strictly_decreasing (closes : list Q) : Prop :=
  Forall (fun p => snd p < fst p) (Py.pairs closes).

(** All closes equal the one price [c]. *)
Definition flat_closes (c : Q) (closes : list Q) : Prop :=
  Forall (fun x => x == c) closes.

(** Every kline makes a higher high and no lower low than the one before. *)
Definition up_trend (klines : list kline) : Prop :=
  Forall (fun p => high (fst p) < high (snd p) /\ low (fst p) <= low (snd p))
         (Py.pairs klines).

(** Every kline makes a lower low and no higher high than the one before. *)
Definition down_trend (klines : list kline) : Prop :=
  Forall (fun p => low (snd p) < low (fst p) /\ high (snd p) <= high (fst p))
         (Py.pairs klines).

(** The invariant of the RSI loop: non-negative averages, RSI in range. *)
Definition rsi_state_ok (st : Q * Q * Q) : Prop :=
  0 <= fst (fst st) /\ 0 <= snd (fst st) /\ 0 <= snd st <= 100.


End Shapes.

(** ** More sample inputs *)

Module Fixtures.

(** A small JSON value type for running [MEXCAPI]: integers, numbers and
    text (text does not convert). *)
Inductive json : Type :=
| JInt (z : Z)
| JNum (q : Q)
| JText (s : string).

Definition to_int (x : json) : option Z :=
  match x with
  | JInt z => Some z
  | JNum _ => None
  | JText _ => None
  end.

Definition to_float (x : json) : option Q :=
  match x with
  | JInt z => Some (inject_Z z)
  | JNum q => Some q
  | JText _ => None
  end.

Definition is_one (x : json) : bool :=
  match x with
  | JText s => String.eqb s "1"
  | _ => false
  end.

Definition row (t : Z) (p : Q) : list json :=
  [JInt t; JNum p; JNum p; JNum p; JNum p; JNum 1].

Definition bad_row : list json := [JInt 3; JNum 1; JText "n/a"].

Definition empty_fs : MEXCAPI.filesystem := fun _ => None.

Definition entry (name status : string) : MEXCAPI.dict json :=
  [("symbol"%string, JText name); ("status"%string, JText status)].

End Fixtures.

(** * Properties *)

(** ** Comparisons, [max], [min], clamps *)

Lemma Qltb_true_iff (x y : Q) : Py.Qltb x y = true <-> x < y.
Proof.
  unfold Py.Qltb. rewrite negb_true_iff.
  split; intro H.
  - apply Qnot_le_lt. intro Hle. apply Qle_bool_iff in Hle. congruence.
  - destruct (Qle_bool y x) eqn:E; [|reflexivity].
    apply Qle_bool_iff in E. apply Qle_not_lt in E. contradiction.
Qed.

Lemma Qltb_false_iff (x y : Q) : Py.Qltb x y = false <-> y <= x.
Proof.
  unfold Py.Qltb. rewrite negb_false_iff. apply Qle_bool_iff.
Qed.

Lemma Qltb_reflect (x y : Q) : reflect (x < y) (Py.Qltb x y).
Proof.
  destruct (Py.Qltb x y) eqn:E; constructor.
  - now apply Qltb_true_iff.
  - apply Qltb_false_iff in E. now apply Qle_not_lt.
Qed.

Ltac case_Qltb :=
  repeat match goal with
  | |- context [Py.Qltb ?a ?b] =>
      let H := fresh "Hlt" in destruct (Qltb_reflect a b) as [H|H];
      [| apply Qnot_lt_le in H]
  | H : context [Py.Qltb ?a ?b] |- _ =>
      let H' := fresh "Hlt" in destruct (Qltb_reflect a b) as [H'|H'];
      [| apply Qnot_lt_le in H']
  end.

Lemma py_clamp_is_clamp (x lo hi : Q) :
  lo <= hi -> Py.max lo (Py.min hi x) == Spec.clamp x lo hi.
Proof.
  intro Hlohi. unfold Py.max, Py.min, Spec.clamp.
  case_Qltb; try reflexivity; try lra.
Qed.

Lemma py_clamp_range (x lo hi : Q) :
  lo <= hi -> lo <= Py.max lo (Py.min hi x) <= hi.
Proof.
  intro Hlohi. unfold Py.max, Py.min.
  case_Qltb; lra.
Qed.

(** C7: for every volatility v >= 0 the three decision bounds of the RSI+ADX
    engine are the inclusive clamps clamp(70 - v*10, 50, 80),
    clamp(30 + v*10, 20, 50) and clamp(15 + v*10, 10, 30), and so lie in
    [50, 80], [20, 50] and [10, 30]; in particular the overbought bound never
    exceeds 80 and the oversold bound never drops below 20. *)
Theorem C7_thresholds_within_clamp_ranges (v : Q) :
  0 <= v ->
  let overbought := RSIStrategy.overbought_threshold (v * 10) in
  let oversold := RSIStrategy.oversold_threshold (v * 10) in
  let adx_thr := RSIStrategy.adx_threshold (v * 10) in
  (overbought == Spec.clamp (70 - v * 10) 50 80 /\ 50 <= overbought <= 80) /\
  (oversold == Spec.clamp (30 + v * 10) 20 50 /\ 20 <= oversold <= 50) /\
  (adx_thr == Spec.clamp (15 + v * 10) 10 30 /\ 10 <= adx_thr <= 30).
Proof.
  intros _. cbv zeta.
  unfold RSIStrategy.overbought_threshold, RSIStrategy.oversold_threshold,
    RSIStrategy.adx_threshold.
  repeat split;
    try (apply py_clamp_is_clamp; lra);
    try (apply py_clamp_range; lra).
Qed.

Lemma C7_witness :
  0 <= 3 # 10 /\
  RSIStrategy.overbought_threshold ((3 # 10) * 10) <= 80 /\
  20 <= RSIStrategy.oversold_threshold ((3 # 10) * 10).
Proof.
  assert (H : 0 <= 3 # 10) by (unfold Qle; simpl; lia).
  split; [exact H|].
  pose proof (C7_thresholds_within_clamp_ranges (3 # 10) H) as T.
  cbv zeta in T.
  destruct T as [[_ [_ Hob]] [[_ [Hos _]] _]].
  split; assumption.
Defined.

(** ** The adaptive RSI period *)

Lemma int_is_trunc (x : Q) : Py.int x = Spec.trunc x.
Proof.
  destruct x as [n d]. unfold Py.int, Spec.trunc, Qle_bool, Qceiling, Qfloor.
  cbn [Qnum Qden Qopp].
  rewrite Z.mul_0_l, Z.mul_1_r.
  destruct (Z.leb_spec 0 n) as [Hn|Hn].
  - apply Z.quot_div_nonneg; lia.
  - replace n with (- (- n))%Z at 1 by lia.
    rewrite Z.quot_opp_l by lia.
    f_equal. apply Z.quot_div_nonneg; lia.
Qed.

(** Truncation moves toward zero by less than one. *)
Lemma trunc_toward_zero (x : Q) :
  Qabs (inject_Z (Spec.trunc x)) <= Qabs x /\
  Qabs (x - inject_Z (Spec.trunc x)) < 1.
Proof.
  unfold Spec.trunc.
  destruct (Qle_bool 0 x) eqn:E.
  - apply Qle_bool_iff in E.
    pose proof (Qfloor_le x) as Hf.
    pose proof (Qlt_floor x) as Hl. rewrite inject_Z_plus in Hl.
    assert (H0 : 0 <= inject_Z (Qfloor x)).
    { change 0 with (inject_Z 0). rewrite <- Zle_Qle.
      change 0%Z with (Qfloor 0). now apply Qfloor_resp_le. }
    change (inject_Z 1) with 1 in Hl.
    split; repeat (apply Qabs_case; intros); lra.
  - assert (Hx : x < 0).
    { apply Qnot_le_lt. intro H. apply Qle_bool_iff in H. congruence. }
    pose proof (Qle_ceiling x) as Hc.
    pose proof (Qceiling_lt x) as Hl.
    unfold Z.sub in Hl. rewrite inject_Z_plus, inject_Z_opp in Hl.
    assert (H0 : inject_Z (Qceiling x) <= 0).
    { change 0 with (inject_Z 0). rewrite <- Zle_Qle.
      change 0%Z with (Qceiling 0). apply Qceiling_resp_le. lra. }
    change (inject_Z 1) with 1 in Hl.
    split; repeat (apply Qabs_case; intros); lra.
Qed.

Lemma py_clampZ_is_clampZ (x lo hi : Z) :
  (lo <= hi)%Z -> Py.maxZ lo (Py.minZ hi x) = Spec.clampZ x lo hi.
Proof.
  intro H. unfold Py.maxZ, Py.minZ, Spec.clampZ.
  destruct (Z.ltb_spec x hi), (Z.ltb_spec x lo), (Z.ltb_spec hi x);
    try lia;
    match goal with
    | |- context [(?a <? ?b)%Z] => destruct (Z.ltb_spec a b); lia
    end.
Qed.




(** ** The RSI+ADX engine: control flow and error handling *)

Lemma last_item_nonempty {A} (l : list A) (d : A) :
  l <> [] -> Py.last_item l = Py.Ok (List.last l d).
Proof.
  intro H. destruct (exists_last H) as [l' [x ->]].
  unfold Py.last_item. rewrite rev_app_distr, last_last. reflexivity.
Qed.



(** With enough klines and a supplied volatility the engine reaches the
    decision and the minimum-order veto. *)
Lemma generate_signal_supplied (klines : list kline) (v : Q) :
  (RSIStrategy.base_period + 1 <= length klines)%nat ->
  RSIStrategy.generate_signal (Py.Ok klines) (Some v)
  = Py.try_except
      (RSIStrategy.min_order_veto
         (RSIStrategy.decide
            (RSIStrategy.calculate_rsi (map close klines)
               (Z.to_nat (RSIStrategy.adaptive_period (Some v))))
            (RSIStrategy.calculate_adx klines 14)
            (RSIStrategy.overbought_threshold (v * 10))
            (RSIStrategy.oversold_threshold (v * 10))
            (RSIStrategy.adx_threshold (v * 10)))
         (map close klines))
      (fun _ => Py.Ok "hold"%string).
Proof.
  intro Hlen. unfold RSIStrategy.generate_signal. cbn [Py.bind].
  destruct klines as [|k0 klines']; [cbn in Hlen; lia|].
  rewrite length_map.
  destruct (Nat.ltb_spec (length (k0 :: klines')) (RSIStrategy.base_period + 1));
    [lia|].
  reflexivity.
Qed.

(** Without a volatility the threshold arithmetic raises [TypeError], which
    the handler of line 155 turns into 'hold'. *)
Lemma generate_signal_without_volatility (get_klines : Py.result (list kline)) :
  RSIStrategy.generate_signal get_klines None = Py.Ok "hold"%string.
Proof.
  unfold RSIStrategy.generate_signal.
  destruct get_klines as [klines|e]; cbn [Py.bind Py.try_except]; [|reflexivity].
  destruct klines as [|k0 klines']; [reflexivity|].
  destruct (_ <? _)%nat; reflexivity.
Qed.


(** C2, as stated, fails: with fifteen klines and no volatility the call
    returns the signal 'hold'; no error reaches the caller. *)
Lemma C2_counterexample :
  RSIStrategy.generate_signal (Py.Ok Samples.flat15) None = Py.Ok "hold"%string /\
  ~ (exists e, RSIStrategy.generate_signal (Py.Ok Samples.flat15) None
               = Py.Raise e).
Proof.
  split; [apply generate_signal_without_volatility|].
  intros [e He]. rewrite generate_signal_without_volatility in He.
  discriminate.
Qed.

(** C2 (amended): for the RSI+ADX variant, calling generate_signal without a
    volatility value (volatility absent/None) never surfaces an error to the
    caller: whatever the KlineSource returns or raises, the call returns the
    signal 'hold'. *)
Theorem C2_missing_volatility_returns_hold
        (get_klines : Py.result (list kline)) :
  RSIStrategy.generate_signal get_klines None = Py.Ok "hold"%string.
Proof.
  apply generate_signal_without_volatility.
Qed.

(** ** The mean-reversion engine: control flow and error handling *)

Section MeanReversionControl.

Variable pow_half : Q -> Q.





End MeanReversionControl.




(** ** The decision of the RSI+ADX engine and the minimum-order veto *)

Lemma order_quantity_positive (c : Q) :
  0 < c -> RSIStrategy.order_quantity c = Np.Finite ((1 # 10) / c).
Proof.
  intro Hc. unfold RSIStrategy.order_quantity, Np.truediv.
  destruct (Qeq_bool c 0) eqn:E; [|reflexivity].
  apply Qeq_bool_iff in E. lra.
Qed.

Lemma quantity_below_minimum_iff (c : Q) :
  0 < c ->
  (Np.lt (RSIStrategy.order_quantity c) RSIStrategy.min_order_size = true
   <-> 100 < c).
Proof.
  intro Hc. rewrite (order_quantity_positive c Hc). cbn [Np.lt].
  rewrite Qltb_true_iff. unfold RSIStrategy.min_order_size.
  assert (Hq : (1 # 10) / c * c == 1 # 10) by (field; lra).
  split; intro H.
  - assert (H' : (1 # 10) / c * c < (1 # 1000) * c)
      by (apply Qmult_lt_compat_r; assumption).
    lra.
  - apply Qlt_shift_div_r; [assumption | lra].
Qed.

Lemma closes_nonempty (klines : list kline) :
  (RSIStrategy.base_period + 1 <= length klines)%nat -> map close klines <> [].
Proof.
  destruct klines; [cbn; lia | discriminate].
Qed.

(** C5: for the RSI+ADX engine with at least basePeriod+1 closes and a
    supplied volatility, the call returns a signal s with: s is 'sell' exactly
    when rsi > overbought and adx > adxThreshold and the order quantity is
    not below 0.001; s is 'buy' exactly when rsi < oversold and
    adx > adxThreshold and the order quantity is not below 0.001; s is 'hold'
    otherwise, that is when neither indicator condition holds or the order
    quantity of the latest close is below 0.001. *)
Theorem C5_rsi_adx_decision (klines : list kline) (v : Q) :
  (RSIStrategy.base_period + 1 <= length klines)%nat ->
  let closes := map close klines in
  let rsi :=
    RSIStrategy.calculate_rsi closes
      (Z.to_nat (RSIStrategy.adaptive_period (Some v))) in
  let adx := RSIStrategy.calculate_adx klines 14 in
  let overbought := RSIStrategy.overbought_threshold (v * 10) in
  let oversold := RSIStrategy.oversold_threshold (v * 10) in
  let adx_thr := RSIStrategy.adx_threshold (v * 10) in
  exists s c,
    RSIStrategy.generate_signal (Py.Ok klines) (Some v) = Py.Ok s /\
    Py.last_item closes = Py.Ok c /\
    let below_minimum :=
      Np.lt (RSIStrategy.order_quantity c) RSIStrategy.min_order_size = true in
    (s = "sell"%string <->
     overbought < rsi /\ adx_thr < adx /\ ~ below_minimum) /\
    (s = "buy"%string <->
     rsi < oversold /\ adx_thr < adx /\ ~ below_minimum) /\
    (s = "hold"%string <->
     (~ (overbought < rsi /\ adx_thr < adx) /\
      ~ (rsi < oversold /\ adx_thr < adx)) \/ below_minimum).
Proof.
  intros Hlen closes rsi adx overbought oversold adx_thr.
  rewrite (generate_signal_supplied klines v Hlen).
  fold closes rsi adx overbought oversold adx_thr.
  pose proof (last_item_nonempty closes 0 (closes_nonempty klines Hlen)) as Hlast.
  assert (Hob : 50 <= overbought)
    by (apply (py_clamp_range (70 - v * 10) 50 80); lra).
  assert (Hos : oversold <= 50)
    by (apply (py_clamp_range (30 + v * 10) 20 50); lra).
  clearbody rsi adx overbought oversold adx_thr.
  unfold RSIStrategy.min_order_veto, RSIStrategy.decide.
  rewrite Hlast. set (c := List.last closes 0). clearbody c.
  exists (if Py.Qltb overbought rsi && Py.Qltb adx_thr adx
          then if Np.lt (RSIStrategy.order_quantity c) RSIStrategy.min_order_size
               then "hold" else "sell"
          else if Py.Qltb rsi oversold && Py.Qltb adx_thr adx
               then if Np.lt (RSIStrategy.order_quantity c)
                             RSIStrategy.min_order_size
                    then "hold" else "buy"
               else "hold")%string, c.
  destruct (Qltb_reflect overbought rsi) as [H1|H1];
    destruct (Qltb_reflect adx_thr adx) as [H2|H2];
    destruct (Qltb_reflect rsi oversold) as [H3|H3];
    cbn [andb negb String.eqb Ascii.eqb Bool.eqb Py.bind Py.try_except];
    destruct (Np.lt (RSIStrategy.order_quantity c) RSIStrategy.min_order_size);
    cbn [Py.try_except];
    (split; [reflexivity|]); (split; [reflexivity|]); cbv zeta;
    repeat split; intros;
    repeat match goal with
           | H : _ /\ _ |- _ => destruct H
           | H : _ \/ _ |- _ => destruct H
           end;
    try discriminate; try reflexivity; try congruence; try lra;
    try tauto;
    try (left; split; intros [? ?]; (contradiction || lra));
    try (intros ?; discriminate).
Qed.

Lemma C5_witness :
  exists s c,
    RSIStrategy.generate_signal (Py.Ok (Samples.rally 10 16)) (Some (1 # 5))
    = Py.Ok s /\
    Py.last_item (map close (Samples.rally 10 16)) = Py.Ok c.
Proof.
  assert (H : (RSIStrategy.base_period + 1 <= length (Samples.rally 10 16))%nat)
    by (vm_compute; lia).
  destruct (C5_rsi_adx_decision (Samples.rally 10 16) (1 # 5) H)
    as (s & c & Hs & Hc & _).
  exists s, c. split; assumption.
Defined.

(** The four outcomes on rising and falling series, below and above a close
    of 100. *)
Example rsi_engine_sell :
  RSIStrategy.generate_signal (Py.Ok (Samples.rally 10 16)) (Some (1 # 5))
  = Py.Ok "sell"%string.
Proof. vm_compute. reflexivity. Qed.

Example rsi_engine_buy :
  RSIStrategy.generate_signal (Py.Ok (Samples.slump 50 16)) (Some (1 # 5))
  = Py.Ok "buy"%string.
Proof. vm_compute. reflexivity. Qed.

Example rsi_engine_sell_vetoed :
  RSIStrategy.generate_signal (Py.Ok (Samples.rally 90 16)) (Some (1 # 5))
  = Py.Ok "hold"%string.
Proof. vm_compute. reflexivity. Qed.

Example rsi_engine_buy_vetoed :
  RSIStrategy.generate_signal (Py.Ok (Samples.slump 150 16)) (Some (1 # 5))
  = Py.Ok "hold"%string.
Proof. vm_compute. reflexivity. Qed.

(** A zero latest close makes the numpy quotient infinite, which is not
    below the minimum: no veto. *)
Example order_quantity_at_zero :
  RSIStrategy.order_quantity 0 = Np.PosInf /\
  Np.lt (RSIStrategy.order_quantity 0) RSIStrategy.min_order_size = false.
Proof. split; reflexivity. Qed.



(** ** The mean-reversion decision *)


Lemma lastn_length {A} (n : nat) (l : list A) :
  (1 <= n <= length l)%nat -> length (Py.lastn n l) = n.
Proof.
  intro H. unfold Py.lastn. destruct n; [lia|].
  rewrite length_skipn. lia.
Qed.




(** Section 8: nineteen closes at 100 and one at 200 give 'sell' (mean 105,
    variance 475, standard deviation about 21.79, upper bound about 161.7 at
    volatility 0.3). *)
Example mean_reversion_spike_sells :
  MeanReversionStrategy.generate_signal MeanReversionStrategy.sqrt6
    (Py.Ok Samples.spike20) (Py.Ok (3 # 10))
  = Py.Ok "sell"%string.
Proof. vm_compute. reflexivity. Qed.

(** The threshold is not clamped: at volatility 2 it is 6 standard
    deviations and the same spike is held. *)
Example mean_reversion_spike_held_at_high_volatility :
  MeanReversionStrategy.generate_signal MeanReversionStrategy.sqrt6
    (Py.Ok Samples.spike20) (Py.Ok 2)
  = Py.Ok "hold"%string.
Proof. vm_compute. reflexivity. Qed.

(** ** Sums, means and slices *)

Lemma Forall_firstn {A} (P : A -> Prop) (n : nat) (l : list A) :
  Forall P l -> Forall P (firstn n l).
Proof.
  intro H. rewrite <- (firstn_skipn n l) in H.
  apply Forall_app in H. tauto.
Qed.

Lemma Forall_skipn {A} (P : A -> Prop) (n : nat) (l : list A) :
  Forall P l -> Forall P (skipn n l).
Proof.
  intro H. rewrite <- (firstn_skipn n l) in H.
  apply Forall_app in H. tauto.
Qed.

Lemma Forall_lastn {A} (P : A -> Prop) (n : nat) (l : list A) :
  Forall P l -> Forall P (Py.lastn n l).
Proof.
  intro H. unfold Py.lastn. destruct n; [assumption|].
  now apply Forall_skipn.
Qed.

Lemma pairs_length {A} (l : list A) : length (Py.pairs l) = (length l - 1)%nat.
Proof.
  induction l as [|a [|b t] IH]; [reflexivity | reflexivity|].
  change (Py.pairs (a :: b :: t)) with ((a, b) :: Py.pairs (b :: t)).
  cbn [length] in *. rewrite IH. lia.
Qed.

Lemma sum_of_zeros (l : list Q) : Forall (fun x => x = 0) l -> Py.sum l = 0.
Proof.
  unfold Py.sum. induction 1 as [|x l Hx _ IH]; [reflexivity|].
  subst x. cbn [fold_left]. exact IH.
Qed.

Lemma fold_Qplus_nonneg (l : list Q) (acc : Q) :
  Forall (fun x => 0 <= x) l -> acc <= fold_left Qplus l acc.
Proof.
  intro H. revert acc. induction H as [|x l Hx _ IH]; intro acc.
  - cbn. lra.
  - cbn [fold_left]. specialize (IH (acc + x)). lra.
Qed.

Lemma sum_positive (l : list Q) :
  l <> [] -> Forall (fun x => 0 < x) l -> 0 < Py.sum l.
Proof.
  intros Hne H. destruct H as [|x l Hx Hl]; [contradiction|].
  unfold Py.sum. cbn [fold_left].
  assert (Hge : 0 + x <= fold_left Qplus l (0 + x)).
  { apply fold_Qplus_nonneg. eapply Forall_impl; [|exact Hl].
    intros a Ha. cbv beta in *. lra. }
  lra.
Qed.

Lemma len_positive {A} (l : list A) : l <> [] -> 0 < Py.len l.
Proof.
  destruct l; [contradiction|]. intros _.
  unfold Py.len, Qlt. cbn [length Qnum Qden inject_Z]. lia.
Qed.

Lemma mean_of_zeros (l : list Q) :
  Forall (fun x => x = 0) l -> Np.mean l == 0.
Proof.
  intro H. unfold Np.mean. rewrite (sum_of_zeros l H).
  unfold Qdiv. apply Qmult_0_l.
Qed.

Lemma mean_positive (l : list Q) :
  l <> [] -> Forall (fun x => 0 < x) l -> 0 < Np.mean l.
Proof.
  intros Hne H. unfold Np.mean.
  apply Qlt_shift_div_l; [now apply len_positive|].
  rewrite Qmult_0_l. now apply sum_positive.
Qed.

(** ** RSI on a rising series *)

Lemma diff_of_increasing (closes : list Q) :
  Spec.strictly_increasing closes -> Forall (fun d => 0 < d) (Np.diff closes).
Proof.
  unfold Spec.strictly_increasing, Np.diff. intro H.
  apply Forall_map. eapply Forall_impl; [|exact H].
  intros [a b] Hab. cbn [fst snd] in *. lra.
Qed.

(** C9: for every strictly increasing close series of length greater than
    period (period >= 1), calculate_rsi returns exactly 100.0: every loss is
    zero, so the seed avg_loss is 0, the seed avg_gain is positive, and the
    zero-loss branch returns 100.0. *)
Theorem C9_rsi_of_rising_series (closes : list Q) (period : nat) :
  (1 <= period)%nat ->
  (period < length closes)%nat ->
  Spec.strictly_increasing closes ->
  RSIStrategy.calculate_rsi closes period = 100.
Proof.
  intros Hp Hlen Hinc.
  pose proof (diff_of_increasing closes Hinc) as Hd.
  unfold RSIStrategy.calculate_rsi.
  destruct (Nat.ltb_spec (length closes) (period + 1)) as [Hlt|_]; [lia|].
  cbv zeta.
  set (gains := map (fun d => if Py.Qltb 0 d then d else 0) (Np.diff closes)).
  set (losses := map (fun d => if Py.Qltb d 0 then - d else 0) (Np.diff closes)).
  assert (Hg : Forall (fun x => 0 < x) gains).
  { apply Forall_map. eapply Forall_impl; [|exact Hd].
    intros d H. cbv beta in *.
    destruct (Qltb_reflect 0 d); [assumption|contradiction]. }
  assert (Hl : Forall (fun x => x = 0) losses).
  { apply Forall_map. eapply Forall_impl; [|exact Hd].
    intros d H. cbv beta in *.
    destruct (Qltb_reflect d 0); [lra|reflexivity]. }
  assert (Hne : firstn period gains <> []).
  { intro E. apply (f_equal (@length Q)) in E.
    rewrite length_firstn in E. unfold gains, Np.diff in E.
    rewrite !length_map, pairs_length in E. cbn [length] in E. lia. }
  assert (Hloss : Qeq_bool (Np.mean (firstn period losses)) 0 = true).
  { apply Qeq_bool_iff. apply mean_of_zeros. now apply Forall_firstn. }
  rewrite Hloss. unfold RSIStrategy.zero_loss_rsi.
  destruct (Qltb_reflect 0 (Np.mean (firstn period gains))) as [_|Hn];
    [reflexivity|].
  exfalso. apply Hn. apply mean_positive; [assumption|].
  now apply Forall_firstn.
Qed.

Lemma C9_witness : RSIStrategy.calculate_rsi [1; 2; 3; 5; 8; 13] 3 = 100.
Proof.
  apply C9_rsi_of_rising_series.
  - lia.
  - cbn [length]. lia.
  - unfold Spec.strictly_increasing. cbn [Py.pairs].
    repeat constructor.
Defined.

(** One falling step is enough to leave 100. *)
Example rsi_with_a_loss :
  RSIStrategy.calculate_rsi [1; 2; 1; 4; 3; 6] 3 == 4300 # 53.
Proof. vm_compute. reflexivity. Qed.

(** ** ADX on short and on constant-price input *)

Lemma adx_short (klines : list kline) (period : nat) :
  (length klines < period + 1)%nat -> RSIStrategy.calculate_adx klines period = 0.
Proof.
  intro H. unfold RSIStrategy.calculate_adx, RSIStrategy.adx_loop.
  destruct (Nat.ltb_spec (length klines) (period + 1)); [reflexivity | lia].
Qed.

Lemma Forall_pairs {A} (P : A -> Prop) (l : list A) :
  Forall P l -> Forall (fun pr => P (fst pr) /\ P (snd pr)) (Py.pairs l).
Proof.
  induction l as [|a [|b t] IH]; intro H; [constructor | constructor|].
  change (Py.pairs (a :: b :: t)) with ((a, b) :: Py.pairs (b :: t)).
  inversion H as [|? ? Ha Ht]; subst. inversion Ht as [|? ? Hb _]; subst.
  constructor; [split; assumption | apply IH; assumption].
Qed.

Lemma Forall_combine_snd {A B} (P : B -> Prop) (l1 : list A) (l2 : list B) :
  Forall P l2 -> Forall (fun x => P (snd x)) (combine l1 l2).
Proof.
  intro H. revert l1. induction H as [|b l2 Hb _ IH]; intros [|a l1];
    cbn [combine]; constructor; [assumption | apply IH].
Qed.

Lemma Forall_combine {A B} (P : A -> Prop) (R : B -> Prop)
      (l1 : list A) (l2 : list B) :
  Forall P l1 -> Forall R l2 ->
  Forall (fun x => P (fst x) /\ R (snd x)) (combine l1 l2).
Proof.
  intro H. revert l2. induction H as [|a l1 Ha _ IH]; intros [|b l2] H2;
    cbn [combine]; try constructor.
  - inversion H2; subst. split; assumption.
  - inversion H2; subst. apply IH; assumption.
Qed.

Lemma fold_left_invariant {S X} (step : S -> X -> S) (inv : S -> Prop)
      (ok : X -> Prop) (l : list X) (s : S) :
  (forall s x, inv s -> ok x -> inv (step s x)) ->
  inv s -> Forall ok l -> inv (fold_left step l s).
Proof.
  intros Hstep Hs Hl. revert s Hs.
  induction Hl as [|x l Hx _ IH]; intros s Hs; [exact Hs|].
  cbn [fold_left]. apply IH. now apply Hstep.
Qed.

Lemma clip_within (x lo hi : Q) : lo <= x <= hi -> Np.clip x lo hi = x.
Proof.
  intros [Hlo Hhi]. unfold Np.clip, Py.max, Py.min.
  destruct (Qltb_reflect x lo); [lra|].
  destruct (Qltb_reflect hi x); [lra | reflexivity].
Qed.

Lemma scaled_zero_di (m a : Q) :
  m == 0 ->
  Np.clip (100 * m / a) (- RSIStrategy.di_bound) RSIStrategy.di_bound == 0.
Proof.
  intro Hm.
  assert (E : 100 * m / a == 0).
  { unfold Qdiv. rewrite Hm. ring. }
  rewrite clip_within; [exact E|].
  rewrite E. unfold RSIStrategy.di_bound. split; lra.
Qed.

Lemma dx_of_zero (p m : Q) : p == 0 -> m == 0 -> RSIStrategy.dx_of p m = 0.
Proof.
  intros Hp Hm. unfold RSIStrategy.dx_of.
  assert (E : Qeq_bool (p + m) 0 = true) by (apply Qeq_bool_iff; lra).
  now rewrite E.
Qed.

Lemma adx_seed_quiet (period : nat) (tr plus minus : list Q) :
  Forall (fun x => x = 0) plus -> Forall (fun x => x = 0) minus ->
  adx_quiet (RSIStrategy.adx_seed period tr plus minus).
Proof.
  intros Hp Hm. unfold RSIStrategy.adx_seed. cbv zeta.
  assert (Ep := mean_of_zeros _ (Forall_firstn _ period _ Hp)).
  assert (Em := mean_of_zeros _ (Forall_firstn _ period _ Hm)).
  unfold adx_quiet. cbn [RSIStrategy.plus_di RSIStrategy.minus_di
                            RSIStrategy.adx_values].
  pose proof (scaled_zero_di _ (Py.max (Np.mean (firstn period tr))
                                       RSIStrategy.atr_floor) Ep) as Hpd.
  pose proof (scaled_zero_di _ (Py.max (Np.mean (firstn period tr))
                                       RSIStrategy.atr_floor) Em) as Hmd.
  split; [exact Hpd|]. split; [exact Hmd|].
  constructor; [|constructor]. now apply dx_of_zero.
Qed.

Lemma adx_step_quiet (period : nat) (st : RSIStrategy.adx_acc) (x : Q * (Q * Q)) :
  adx_quiet st -> fst (snd x) = 0 /\ snd (snd x) = 0 ->
  adx_quiet (RSIStrategy.adx_step period st x).
Proof.
  intros (Hp & Hm & Hv) [Hx1 Hx2].
  destruct x as [tr_i [pdm mdm]]. cbn [fst snd] in Hx1, Hx2. subst pdm mdm.
  unfold RSIStrategy.adx_step. cbv zeta.
  set (a := Py.max _ RSIStrategy.atr_floor).
  assert (Ep : (RSIStrategy.plus_di st * (Py.of_nat period - 1) + 0)
               / Py.of_nat period == 0).
  { unfold Qdiv. rewrite Hp. ring. }
  assert (Em : (RSIStrategy.minus_di st * (Py.of_nat period - 1) + 0)
               / Py.of_nat period == 0).
  { unfold Qdiv. rewrite Hm. ring. }
  pose proof (scaled_zero_di _ a Ep) as Hpd.
  pose proof (scaled_zero_di _ a Em) as Hmd.
  unfold adx_quiet. cbn [RSIStrategy.plus_di RSIStrategy.minus_di
                            RSIStrategy.adx_values].
  split; [exact Hpd|]. split; [exact Hmd|].
  apply Forall_app. split; [assumption|].
  constructor; [|constructor]. now apply dx_of_zero.
Qed.

Lemma constant_price_no_movement (p : Q) (klines : list kline) :
  Spec.constant_price p klines ->
  Forall (fun x => x = 0) (RSIStrategy.plus_dm_list klines) /\
  Forall (fun x => x = 0) (RSIStrategy.minus_dm_list klines).
Proof.
  intro H. apply Forall_pairs in H.
  unfold RSIStrategy.plus_dm_list, RSIStrategy.minus_dm_list.
  split; apply Forall_map; (eapply Forall_impl; [|exact H]);
    intros [prev cur]; cbn [fst snd];
    intros [(Hh1 & Hl1 & Hc1) (Hh2 & Hl2 & Hc2)].
  - unfold RSIStrategy.plus_dm_of. cbv zeta.
    destruct (Qltb_reflect (low prev - low cur) (high cur - high prev));
      [lra | reflexivity].
  - unfold RSIStrategy.minus_dm_of. cbv zeta.
    destruct (Qltb_reflect (high cur - high prev) (low prev - low cur));
      [lra | reflexivity].
Qed.

Lemma constant_price_no_range (p : Q) (klines : list kline) :
  Spec.constant_price p klines ->
  Forall (fun x => x == 0) (RSIStrategy.tr_values_of klines).
Proof.
  intro H. apply Forall_pairs in H. unfold RSIStrategy.tr_values_of.
  apply Forall_map. eapply Forall_impl; [|exact H].
  intros [prev cur]; cbn [fst snd].
  intros [(Hh1 & Hl1 & Hc1) (Hh2 & Hl2 & Hc2)].
  unfold RSIStrategy.true_range, Py.max3, Py.max.
  assert (E1 : high cur - low cur == 0) by lra.
  assert (E2 : Qabs (high cur - close prev) == 0).
  { assert (E : high cur - close prev == 0) by lra. rewrite E. reflexivity. }
  assert (E3 : Qabs (low cur - close prev) == 0).
  { assert (E : low cur - close prev == 0) by lra. rewrite E. reflexivity. }
  repeat match goal with
         | |- context [Py.Qltb ?a ?b] => destruct (Py.Qltb a b)
         end; assumption.
Qed.

Lemma adx_loop_quiet (p : Q) (klines : list kline) (period : nat)
      (st : RSIStrategy.adx_acc) :
  Spec.constant_price p klines ->
  RSIStrategy.adx_loop klines period = Some st -> adx_quiet st.
Proof.
  intros Hc. destruct (constant_price_no_movement p klines Hc) as [Hp Hm].
  unfold RSIStrategy.adx_loop.
  destruct (_ <? _)%nat; [discriminate|]. cbv zeta.
  destruct (_ <? _)%nat; [discriminate|].
  intro E. inversion E as [E']. clear E E'.
  apply fold_left_invariant
    with (ok := fun x : Q * (Q * Q) => fst (snd x) = 0 /\ snd (snd x) = 0).
  - apply adx_step_quiet.
  - now apply adx_seed_quiet.
  - apply (Forall_combine_snd (fun y : Q * Q => fst y = 0 /\ snd y = 0)).
    apply (Forall_combine (fun x => x = 0) (fun x => x = 0));
      now apply Forall_skipn.
Qed.

(** C8: calculate_adx returns 0.0 for every kline series shorter than
    period+1; and on constant-price input (all highs, lows and closes equal) of
    any length, for period >= 1, the result is 0.0 (a number, not NaN): true
    range and directional movement are zero, the directional indices are zero
    whatever the floored atr is, and every dx takes the zero-denominator
    branch. *)
Theorem C8_adx_short_or_constant
        (klines : list kline) (period : nat) (p : Q) :
  ((length klines < period + 1)%nat ->
   RSIStrategy.calculate_adx klines period = 0) /\
  ((1 <= period)%nat -> Spec.constant_price p klines ->
   RSIStrategy.calculate_adx klines period == 0 /\
   Forall (fun x => x == 0) (RSIStrategy.tr_values_of klines)).
Proof.
  split; [apply adx_short|].
  intros _ Hc. split; [|now apply (constant_price_no_range p)].
  unfold RSIStrategy.calculate_adx.
  destruct (RSIStrategy.adx_loop klines period) as [st|] eqn:E; [|reflexivity].
  destruct (adx_loop_quiet p klines period st Hc E) as (_ & _ & Hv).
  destruct (RSIStrategy.adx_values st) as [|d ds] eqn:Ev; [reflexivity|].
  apply mean_of_zeros. now apply Forall_lastn.
Qed.

Lemma C8_witness :
  RSIStrategy.calculate_adx Samples.flat15 14 == 0 /\
  RSIStrategy.calculate_adx (repeat (Samples.flat 100) 3) 14 = 0.
Proof.
  split.
  - apply (proj2 (C8_adx_short_or_constant Samples.flat15 14 100)).
    + lia.
    + unfold Spec.constant_price, Samples.flat15.
      repeat constructor.
  - apply (proj1 (C8_adx_short_or_constant (repeat (Samples.flat 100) 3) 14 0)).
    cbn [length repeat]. lia.
Defined.

(** ** The ADX recurrence *)

Lemma pairs_snoc {A} (l : list A) (a b : A) :
  Py.pairs ((l ++ [a]) ++ [b]) = Py.pairs (l ++ [a]) ++ [(a, b)].
Proof.
  induction l as [|x l IH]; [reflexivity|].
  destruct l as [|y t].
  - reflexivity.
  - change (Py.pairs (((x :: y :: t) ++ [a]) ++ [b]))
      with ((x, y) :: Py.pairs (((y :: t) ++ [a]) ++ [b])).
    change (Py.pairs ((x :: y :: t) ++ [a]))
      with ((x, y) :: Py.pairs ((y :: t) ++ [a])).
    rewrite IH. reflexivity.
Qed.

Lemma last_item_inv {A} (l : list A) (x : A) :
  Py.last_item l = Py.Ok x -> exists l', l = l' ++ [x].
Proof.
  unfold Py.last_item. destruct (rev l) as [|y r] eqn:E; [discriminate|].
  intro H. inversion H; subst y. exists (rev r).
  rewrite <- (rev_involutive l), E. reflexivity.
Qed.

Lemma combine_app {A B} (a a' : list A) (b b' : list B) :
  length a = length b ->
  combine (a ++ a') (b ++ b') = combine a b ++ combine a' b'.
Proof.
  revert b. induction a as [|x a IH]; intros [|y b] H; try discriminate.
  - reflexivity.
  - cbn [app combine]. f_equal. apply IH. cbn in H. lia.
Qed.

Lemma firstn_snoc {A} (n : nat) (l : list A) (x : A) :
  (n <= length l)%nat -> firstn n (l ++ [x]) = firstn n l.
Proof.
  intro H. rewrite firstn_app.
  replace (n - length l)%nat with 0%nat by lia.
  cbn [firstn]. apply app_nil_r.
Qed.

Lemma skipn_snoc {A} (n : nat) (l : list A) (x : A) :
  (n <= length l)%nat -> skipn n (l ++ [x]) = skipn n l ++ [x].
Proof.
  intro H. rewrite skipn_app.
  replace (n - length l)%nat with 0%nat by lia. reflexivity.
Qed.

Lemma adx_seed_snoc (period : nat) (tr plus minus : list Q) (x y z : Q) :
  (period <= length tr)%nat -> (period <= length plus)%nat ->
  (period <= length minus)%nat ->
  RSIStrategy.adx_seed period (tr ++ [x]) (plus ++ [y]) (minus ++ [z])
  = RSIStrategy.adx_seed period tr plus minus.
Proof.
  intros H1 H2 H3. unfold RSIStrategy.adx_seed.
  now rewrite !firstn_snoc by assumption.
Qed.

(** Feeding one more kline to [calculate_adx] runs the loop body once more,
    on the accumulator left by the klines before it. *)
Lemma adx_loop_snoc (klines : list kline) (prev cur : kline) (period : nat)
      (st : RSIStrategy.adx_acc) :
  Py.last_item klines = Py.Ok prev ->
  RSIStrategy.adx_loop klines period = Some st ->
  RSIStrategy.adx_loop (klines ++ [cur]) period
  = Some (RSIStrategy.adx_step period st
            (RSIStrategy.true_range prev cur,
             (RSIStrategy.plus_dm_of prev cur,
              RSIStrategy.minus_dm_of prev cur))).
Proof.
  intros Hlast Hloop.
  destruct (last_item_inv klines prev Hlast) as [l ->].
  unfold RSIStrategy.adx_loop in *.
  destruct (Nat.ltb_spec (length (l ++ [prev])) (period + 1)) as [|Hlen];
    [discriminate|].
  cbv zeta in Hloop.
  destruct (Nat.ltb_spec (length (RSIStrategy.tr_values_of (l ++ [prev]))) period)
    as [|Htr]; [discriminate|].
  inversion Hloop as [Hst]. clear Hloop.
  assert (Hlt : length (RSIStrategy.tr_values_of (l ++ [prev]))
                = (length (l ++ [prev]) - 1)%nat)
    by (unfold RSIStrategy.tr_values_of; now rewrite length_map, pairs_length).
  assert (Hlp : length (RSIStrategy.plus_dm_list (l ++ [prev]))
                = (length (l ++ [prev]) - 1)%nat)
    by (unfold RSIStrategy.plus_dm_list; now rewrite length_map, pairs_length).
  assert (Hlm : length (RSIStrategy.minus_dm_list (l ++ [prev]))
                = (length (l ++ [prev]) - 1)%nat)
    by (unfold RSIStrategy.minus_dm_list; now rewrite length_map, pairs_length).
  assert (Etr : RSIStrategy.tr_values_of ((l ++ [prev]) ++ [cur])
                = RSIStrategy.tr_values_of (l ++ [prev])
                  ++ [RSIStrategy.true_range prev cur])
    by (unfold RSIStrategy.tr_values_of; now rewrite pairs_snoc, map_app).
  assert (Ep : RSIStrategy.plus_dm_list ((l ++ [prev]) ++ [cur])
               = RSIStrategy.plus_dm_list (l ++ [prev])
                 ++ [RSIStrategy.plus_dm_of prev cur])
    by (unfold RSIStrategy.plus_dm_list; now rewrite pairs_snoc, map_app).
  assert (Em : RSIStrategy.minus_dm_list ((l ++ [prev]) ++ [cur])
               = RSIStrategy.minus_dm_list (l ++ [prev])
                 ++ [RSIStrategy.minus_dm_of prev cur])
    by (unfold RSIStrategy.minus_dm_list; now rewrite pairs_snoc, map_app).
  destruct (Nat.ltb_spec (length ((l ++ [prev]) ++ [cur])) (period + 1)) as [H|_];
    [rewrite length_app in H; lia|].
  cbv zeta. rewrite Etr, Ep, Em.
  destruct (Nat.ltb_spec
              (length (RSIStrategy.tr_values_of (l ++ [prev])
                       ++ [RSIStrategy.true_range prev cur])) period) as [H|_];
    [rewrite length_app in H; lia|].
  rewrite adx_seed_snoc by lia.
  rewrite !skipn_snoc by lia.
  rewrite (combine_app (skipn period (RSIStrategy.plus_dm_list (l ++ [prev]))))
    by (rewrite !length_skipn; lia).
  rewrite (combine_app (skipn period (RSIStrategy.tr_values_of (l ++ [prev]))))
    by (rewrite length_combine, !length_skipn; lia).
  rewrite fold_left_app. reflexivity.
Qed.

(** With exactly period+1 klines the loop body never runs: the accumulator is
    the seed. *)
Lemma adx_loop_seed (klines : list kline) (period : nat) :
  length klines = (period + 1)%nat ->
  RSIStrategy.adx_loop klines period
  = Some (RSIStrategy.adx_seed period (RSIStrategy.tr_values_of klines)
            (RSIStrategy.plus_dm_list klines)
            (RSIStrategy.minus_dm_list klines)).
Proof.
  intro H. unfold RSIStrategy.adx_loop.
  assert (Hlt : length (RSIStrategy.tr_values_of klines) = period)
    by (unfold RSIStrategy.tr_values_of; rewrite length_map, pairs_length; lia).
  assert (Hlp : length (RSIStrategy.plus_dm_list klines) = period)
    by (unfold RSIStrategy.plus_dm_list; rewrite length_map, pairs_length; lia).
  destruct (Nat.ltb_spec (length klines) (period + 1)); [lia|].
  cbv zeta.
  destruct (Nat.ltb_spec (length (RSIStrategy.tr_values_of klines)) period);
    [lia|].
  rewrite (@skipn_all2 _ period (RSIStrategy.tr_values_of klines)) by lia.
  reflexivity.
Qed.

Lemma clip_range (x lo hi : Q) : lo <= hi -> lo <= Np.clip x lo hi <= hi.
Proof.
  intro H. unfold Np.clip, Py.max, Py.min.
  destruct (Qltb_reflect x lo) as [H1|H1].
  - destruct (Qltb_reflect hi lo); lra.
  - destruct (Qltb_reflect hi x); lra.
Qed.

(** The directional indices kept in the accumulator are the ones the latest
    dx was computed from. *)
Lemma adx_carried_is_index (klines : list kline) (period : nat)
      (st : RSIStrategy.adx_acc) :
  RSIStrategy.adx_loop klines period = Some st ->
  Py.last_item (RSIStrategy.adx_values st)
  = Py.Ok (RSIStrategy.dx_of (RSIStrategy.plus_di st) (RSIStrategy.minus_di st)).
Proof.
  unfold RSIStrategy.adx_loop.
  destruct (_ <? _)%nat; [discriminate|]. cbv zeta.
  destruct (_ <? _)%nat; [discriminate|].
  intro E. inversion E as [E']. clear E E'.
  apply fold_left_invariant with (ok := fun _ => True).
  - intros s [tr_i [pdm mdm]] _ _. unfold RSIStrategy.adx_step. cbv zeta.
    cbn [RSIStrategy.adx_values RSIStrategy.plus_di RSIStrategy.minus_di].
    unfold Py.last_item. rewrite rev_app_distr. reflexivity.
  - reflexivity.
  - apply Forall_forall. intros; exact I.
Qed.

(** C4, as stated, fails.  Period 2, four klines: TR = [3, 4, 5],
    +DM = [2, 0, 2], -DM = [0, 2, 0].  After the seed the code carries
    plus_di = 100 * 1 / 3.5 = 200/7, the atr-scaled index, where the smoothed
    +DM is 1; the step at the third TR index smooths that index with the raw
    DM, and the function returns 350/207.  Carrying the smoothed DM gives
    25. *)
Lemma C4_counterexample :
  (exists st,
      RSIStrategy.adx_loop (firstn 3 Samples.zigzag4) 2 = Some st /\
      RSIStrategy.plus_di st == 200 # 7 /\
      Np.mean (firstn 2 (RSIStrategy.plus_dm_list Samples.zigzag4)) == 1) /\
  RSIStrategy.calculate_adx Samples.zigzag4 2 == 350 # 207 /\
  Spec.compute_adx Samples.zigzag4 2 == 25 /\
  ~ RSIStrategy.calculate_adx Samples.zigzag4 2
    == Spec.compute_adx Samples.zigzag4 2.
Proof.
  split; [|split; [|split]].
  - eexists. split; [vm_compute; reflexivity|].
    split; vm_compute; reflexivity.
  - vm_compute. reflexivity.
  - vm_compute. reflexivity.
  - intro H. vm_compute in H. discriminate H.
Qed.

(** The same divergence at the engine's fixed period 14. *)
Example adx_differs_at_period_14 :
  ~ RSIStrategy.calculate_adx Samples.zigzag17 14
    == Spec.compute_adx Samples.zigzag17 14.
Proof. intro H. vm_compute in H. discriminate H. Qed.

(** C4 (amended): in calculate_adx (period >= 1), each further kline (each
    subsequent TR index) Wilder-smooths atr and floors it at 1e-10, and updates
    plus_di/minus_di by applying (prev*(period-1)+new)/period to the
    previous directional index and the new raw DM, then multiplying by 100,
    dividing by the refreshed atr and clipping to [-1e5, 1e5]; the value
    carried between iterations is that atr-scaled, clipped directional index
    (the one the latest dx was computed from), and the new dx is appended to
    the dx history. *)
Theorem C4_adx_recurrence (klines : list kline) (prev cur : kline)
        (period : nat) (st : RSIStrategy.adx_acc) :
  (1 <= period)%nat ->
  Py.last_item klines = Py.Ok prev ->
  RSIStrategy.adx_loop klines period = Some st ->
  let n := Py.of_nat period in
  let new_atr :=
    Py.max ((RSIStrategy.atr st * (n - 1) + RSIStrategy.true_range prev cur) / n)
           (1 # 10000000000) in
  let new_plus_di :=
    Np.clip
      (100 * ((RSIStrategy.plus_di st * (n - 1) + RSIStrategy.plus_dm_of prev cur)
              / n) / new_atr)
      (- (100000)) 100000 in
  let new_minus_di :=
    Np.clip
      (100 * ((RSIStrategy.minus_di st * (n - 1)
               + RSIStrategy.minus_dm_of prev cur) / n) / new_atr)
      (- (100000)) 100000 in
  RSIStrategy.adx_loop (klines ++ [cur]) period
  = Some (RSIStrategy.mk_adx_acc new_atr new_plus_di new_minus_di
            (RSIStrategy.adx_values st
             ++ [RSIStrategy.dx_of new_plus_di new_minus_di])) /\
  Py.last_item (RSIStrategy.adx_values st)
  = Py.Ok (RSIStrategy.dx_of (RSIStrategy.plus_di st) (RSIStrategy.minus_di st)) /\
  - (100000) <= new_plus_di <= 100000 /\
  - (100000) <= new_minus_di <= 100000.
Proof.
  intros _ Hlast Hloop n new_atr new_plus_di new_minus_di.
  split; [|split; [|split]].
  - rewrite (adx_loop_snoc klines prev cur period st Hlast Hloop).
    reflexivity.
  - now apply (adx_carried_is_index klines period).
  - apply clip_range. lra.
  - apply clip_range. lra.
Qed.

Lemma C4_witness :
  exists st,
    RSIStrategy.adx_loop (firstn 3 Samples.zigzag4 ++ [Samples.candle 13 9 12]) 2
    = Some st /\
    RSIStrategy.atr st == 17 # 4.
Proof.
  assert (Hloop : RSIStrategy.adx_loop (firstn 3 Samples.zigzag4) 2
                  = Some (RSIStrategy.adx_seed 2 [3; 4] [2; 0] [0; 2]))
    by (vm_compute; reflexivity).
  assert (Hlast : Py.last_item (firstn 3 Samples.zigzag4)
                  = Py.Ok (Samples.candle 11 7 8)) by reflexivity.
  assert (Hp : (1 <= 2)%nat) by lia.
  destruct (C4_adx_recurrence _ _ (Samples.candle 13 9 12) _ _ Hp Hlast Hloop)
    as [E _].
  eexists. split; [exact E|].
  vm_compute. reflexivity.
Defined.

(** * Further properties of the code *)

(** ** Arithmetic of the Wilder recurrence *)

Lemma of_nat_ge_1 (period : nat) : (1 <= period)%nat -> 1 <= Py.of_nat period.
Proof.
  intro H. unfold Py.of_nat. change 1 with (inject_Z 1).
  rewrite <- Zle_Qle. lia.
Qed.

Lemma wilder_nonneg (a x n : Q) :
  0 <= a -> 0 <= x -> 1 <= n -> 0 <= (a * (n - 1) + x) / n.
Proof.
  intros Ha Hx Hn. apply Qle_shift_div_l; [lra|].
  assert (0 <= a * (n - 1)) by (apply Qmult_le_0_compat; lra).
  lra.
Qed.

Lemma wilder_pos (a x n : Q) :
  0 <= a -> 0 < x -> 1 <= n -> 0 < (a * (n - 1) + x) / n.
Proof.
  intros Ha Hx Hn. apply Qlt_shift_div_l; [lra|].
  assert (0 <= a * (n - 1)) by (apply Qmult_le_0_compat; lra).
  lra.
Qed.

Lemma wilder_zero (a n : Q) : a == 0 -> (a * (n - 1) + 0) / n == 0.
Proof.
  intro Ha. unfold Qdiv. rewrite Ha. ring.
Qed.

Lemma sum_nonneg (l : list Q) : Forall (fun x => 0 <= x) l -> 0 <= Py.sum l.
Proof.
  intro H. unfold Py.sum. now apply fold_Qplus_nonneg.
Qed.

Lemma len_nonneg {A} (l : list A) : 0 <= Py.len l.
Proof.
  unfold Py.len. change 0 with (inject_Z 0). rewrite <- Zle_Qle. lia.
Qed.

Lemma mean_nonneg (l : list Q) : Forall (fun x => 0 <= x) l -> 0 <= Np.mean l.
Proof.
  intro H. unfold Np.mean, Qdiv.
  apply Qmult_le_0_compat; [now apply sum_nonneg|].
  apply Qinv_le_0_compat, len_nonneg.
Qed.

Lemma nonzero_nonneg_pos (x : Q) : 0 <= x -> Qeq_bool x 0 = false -> 0 < x.
Proof.
  intros Hx E. apply Qeq_bool_neq in E.
  destruct (Qlt_le_dec 0 x) as [H|H]; [assumption|].
  exfalso. apply E. lra.
Qed.

Lemma rsi_formula_range (g l : Q) :
  0 <= g -> 0 < l -> 0 <= 100 - 100 / (1 + g / l) <= 100.
Proof.
  intros Hg Hl.
  assert (Hrs : 0 <= g / l) by (apply Qle_shift_div_l; lra).
  set (rs := g / l) in *. clearbody rs.
  assert (H1 : 100 / (1 + rs) <= 100) by (apply Qle_shift_div_r; lra).
  assert (H2 : 0 <= 100 / (1 + rs)) by (apply Qle_shift_div_l; lra).
  lra.
Qed.

(** ** RSI: range, falling and flat series *)

Lemma gains_nonneg (deltas : list Q) :
  Forall (fun x => 0 <= x) (map (fun d => if Py.Qltb 0 d then d else 0) deltas).
Proof.
  apply Forall_map, Forall_forall. intros d _. cbv beta.
  destruct (Qltb_reflect 0 d); lra.
Qed.

Lemma losses_nonneg (deltas : list Q) :
  Forall (fun x => 0 <= x) (map (fun d => if Py.Qltb d 0 then - d else 0) deltas).
Proof.
  apply Forall_map, Forall_forall. intros d _. cbv beta.
  destruct (Qltb_reflect d 0); lra.
Qed.

Lemma zero_loss_rsi_range (g : Q) : 0 <= RSIStrategy.zero_loss_rsi g <= 100.
Proof.
  unfold RSIStrategy.zero_loss_rsi. destruct (Py.Qltb 0 g); lra.
Qed.

Lemma rsi_step_ok (period : nat) (st : Q * Q * Q) (gl : Q * Q) :
  (1 <= period)%nat ->
  Shapes.rsi_state_ok st -> 0 <= fst gl /\ 0 <= snd gl ->
  Shapes.rsi_state_ok (RSIStrategy.rsi_step period st gl).
Proof.
  intros Hp Hst [Hg Hl]. destruct st as [[ag al] r].
  destruct Hst as (Hag & Hal & _). cbn [fst snd] in Hag, Hal.
  pose proof (of_nat_ge_1 period Hp) as Hn.
  pose proof (wilder_nonneg ag (fst gl) _ Hag Hg Hn) as Hag'.
  pose proof (wilder_nonneg al (snd gl) _ Hal Hl Hn) as Hal'.
  unfold RSIStrategy.rsi_step. cbv zeta.
  set (ag' := (ag * (Py.of_nat period - 1) + fst gl) / Py.of_nat period) in *.
  set (al' := (al * (Py.of_nat period - 1) + snd gl) / Py.of_nat period) in *.
  unfold Shapes.rsi_state_ok.
  destruct (Qeq_bool al' 0) eqn:E; cbn [fst snd].
  - split; [assumption|]. split; [assumption|]. apply zero_loss_rsi_range.
  - split; [assumption|]. split; [assumption|].
    apply rsi_formula_range; [assumption|].
    now apply nonzero_nonneg_pos.
Qed.

(** X1: for period >= 1, calculate_rsi returns a value in [0, 100] on every
    close series. *)
Theorem X1_rsi_in_range (closes : list Q) (period : nat) :
  (1 <= period)%nat ->
  0 <= RSIStrategy.calculate_rsi closes period <= 100.
Proof.
  intro Hp. unfold RSIStrategy.calculate_rsi.
  destruct (_ <? _)%nat; [lra|]. cbv zeta.
  set (gains := map (fun d => if Py.Qltb 0 d then d else 0) (Np.diff closes)).
  set (losses := map (fun d => if Py.Qltb d 0 then - d else 0) (Np.diff closes)).
  pose proof (gains_nonneg (Np.diff closes)) as Hg. fold gains in Hg.
  pose proof (losses_nonneg (Np.diff closes)) as Hl. fold losses in Hl.
  pose proof (mean_nonneg _ (Forall_firstn _ period _ Hg)) as Hag.
  pose proof (mean_nonneg _ (Forall_firstn _ period _ Hl)) as Hal.
  set (ag := Np.mean (firstn period gains)) in *.
  set (al := Np.mean (firstn period losses)) in *.
  destruct (Qeq_bool al 0) eqn:E; [apply zero_loss_rsi_range|].
  pose proof (nonzero_nonneg_pos al Hal E) as Hpos.
  assert (Hinv : Shapes.rsi_state_ok
                   (fold_left (RSIStrategy.rsi_step period)
                      (combine (skipn period gains) (skipn period losses))
                      (ag, al, 100 - 100 / (1 + ag / al)))).
  { apply fold_left_invariant
      with (ok := fun gl : Q * Q => 0 <= fst gl /\ 0 <= snd gl).
    - intros s x. now apply rsi_step_ok.
    - unfold Shapes.rsi_state_ok. cbn [fst snd].
      split; [assumption|]. split; [assumption|].
      now apply rsi_formula_range.
    - apply (Forall_combine (fun x => 0 <= x) (fun x => 0 <= x));
        now apply Forall_skipn. }
  destruct (fold_left _ _ _) as [[ag' al'] r].
  destruct Hinv as (_ & _ & Hr). exact Hr.
Qed.

Lemma X1_witness : 0 <= RSIStrategy.calculate_rsi [1; 2; 1; 4; 3; 6] 3 <= 100.
Proof.
  apply X1_rsi_in_range. lia.
Defined.

Lemma diff_of_decreasing (closes : list Q) :
  Shapes.strictly_decreasing closes -> Forall (fun d => d < 0) (Np.diff closes).
Proof.
  unfold Shapes.strictly_decreasing, Np.diff. intro H.
  apply Forall_map. eapply Forall_impl; [|exact H].
  intros [a b] Hab. cbn [fst snd] in *. lra.
Qed.

Lemma diff_length (closes : list Q) :
  length (Np.diff closes) = (length closes - 1)%nat.
Proof.
  unfold Np.diff. now rewrite length_map, pairs_length.
Qed.

Lemma firstn_nonempty {A} (n : nat) (l : list A) :
  (1 <= n)%nat -> (1 <= length l)%nat -> firstn n l <> [].
Proof.
  intros Hn Hl E. apply (f_equal (@length A)) in E.
  rewrite length_firstn in E. cbn [length] in E. lia.
Qed.

Lemma rsi_of_falling (closes : list Q) (period : nat) :
  (1 <= period)%nat ->
  (period < length closes)%nat ->
  Shapes.strictly_decreasing closes ->
  RSIStrategy.calculate_rsi closes period == 0.
Proof.
  intros Hp Hlen Hdec.
  pose proof (diff_of_decreasing closes Hdec) as Hd.
  pose proof (of_nat_ge_1 period Hp) as Hn.
  unfold RSIStrategy.calculate_rsi.
  destruct (Nat.ltb_spec (length closes) (period + 1)) as [Hlt|_]; [lia|].
  cbv zeta.
  set (gains := map (fun d => if Py.Qltb 0 d then d else 0) (Np.diff closes)).
  set (losses := map (fun d => if Py.Qltb d 0 then - d else 0) (Np.diff closes)).
  assert (Hg : Forall (fun x => x = 0) gains).
  { apply Forall_map. eapply Forall_impl; [|exact Hd].
    intros d H. cbv beta in *. destruct (Qltb_reflect 0 d); [lra|reflexivity]. }
  assert (Hl : Forall (fun x => 0 < x) losses).
  { apply Forall_map. eapply Forall_impl; [|exact Hd].
    intros d H. cbv beta in *. destruct (Qltb_reflect d 0); [lra|contradiction]. }
  assert (Hne : firstn period losses <> []).
  { apply firstn_nonempty; [assumption|].
    unfold losses. rewrite length_map, diff_length. lia. }
  pose proof (mean_of_zeros _ (Forall_firstn _ period _ Hg)) as Hag.
  pose proof (mean_positive _ Hne (Forall_firstn _ period _ Hl)) as Hal.
  set (ag := Np.mean (firstn period gains)) in *.
  set (al := Np.mean (firstn period losses)) in *.
  destruct (Qeq_bool al 0) eqn:E; [apply Qeq_bool_iff in E; lra|].
  assert (Hinv : (fun st : Q * Q * Q =>
                    fst (fst st) == 0 /\ 0 < snd (fst st) /\ snd st == 0)
                   (fold_left (RSIStrategy.rsi_step period)
                      (combine (skipn period gains) (skipn period losses))
                      (ag, al, 100 - 100 / (1 + ag / al)))).
  { apply fold_left_invariant
      with (ok := fun gl : Q * Q => fst gl = 0 /\ 0 < snd gl).
    - intros [[a b] r] [g l] (Ha & Hb & _) [Hg0 Hl0].
      cbn [fst snd] in *. subst g.
      unfold RSIStrategy.rsi_step. cbv zeta. cbn [fst snd].
      pose proof (wilder_zero a (Py.of_nat period) Ha) as Ha'.
      assert (Hb' : 0 < (b * (Py.of_nat period - 1) + l) / Py.of_nat period)
        by (apply wilder_pos; lra).
      set (a' := (a * (Py.of_nat period - 1) + 0) / Py.of_nat period) in *.
      set (b' := (b * (Py.of_nat period - 1) + l) / Py.of_nat period) in *.
      destruct (Qeq_bool b' 0) eqn:E'; [apply Qeq_bool_iff in E'; lra|].
      cbn [fst snd]. split; [assumption|]. split; [assumption|].
      rewrite Ha'. unfold Qdiv. rewrite Qmult_0_l. reflexivity.
    - cbn [fst snd]. split; [assumption|]. split; [assumption|].
      rewrite Hag. unfold Qdiv. rewrite Qmult_0_l. reflexivity.
    - apply (Forall_combine (fun x => x = 0) (fun x => 0 < x));
        now apply Forall_skipn. }
  destruct (fold_left _ _ _) as [[ag' al'] r].
  cbv beta in Hinv. cbn [fst snd] in Hinv. tauto.
Qed.

(** X2: for every strictly decreasing close series of length greater than
    period (period >= 1), calculate_rsi returns 0: the average gain stays 0
    and the average loss stays positive through the seed and every
    smoothing step. *)
Theorem X2_rsi_of_falling_series (closes : list Q) (period : nat) :
  (1 <= period)%nat ->
  (period < length closes)%nat ->
  Shapes.strictly_decreasing closes ->
  RSIStrategy.calculate_rsi closes period == 0.
Proof.
  intros Hp Hlen Hdec. now apply rsi_of_falling.
Qed.

Lemma X2_witness : RSIStrategy.calculate_rsi [13; 8; 5; 3; 2; 1] 3 == 0.
Proof.
  apply X2_rsi_of_falling_series.
  - lia.
  - cbn [length]. lia.
  - unfold Shapes.strictly_decreasing. cbn [Py.pairs]. repeat constructor.
Defined.

(** X3: on a flat close series (all closes equal) calculate_rsi returns the
    neutral 50.0, whatever the length and the period (>= 1). *)
Theorem X3_rsi_of_flat_series (closes : list Q) (c : Q) (period : nat) :
  (1 <= period)%nat ->
  Shapes.flat_closes c closes ->
  RSIStrategy.calculate_rsi closes period = 50.
Proof.
  intros _ Hflat. unfold RSIStrategy.calculate_rsi.
  destruct (_ <? _)%nat; [reflexivity|]. cbv zeta.
  assert (Hd : Forall (fun d => d == 0) (Np.diff closes)).
  { unfold Np.diff. apply Forall_map.
    apply Forall_pairs in Hflat. eapply Forall_impl; [|exact Hflat].
    intros [a b] [Ha Hb]. cbn [fst snd] in *. lra. }
  set (gains := map (fun d => if Py.Qltb 0 d then d else 0) (Np.diff closes)).
  set (losses := map (fun d => if Py.Qltb d 0 then - d else 0) (Np.diff closes)).
  assert (Hg : Forall (fun x => x = 0) gains).
  { apply Forall_map. eapply Forall_impl; [|exact Hd].
    intros d H. cbv beta in *. destruct (Qltb_reflect 0 d); [lra|reflexivity]. }
  assert (Hl : Forall (fun x => x = 0) losses).
  { apply Forall_map. eapply Forall_impl; [|exact Hd].
    intros d H. cbv beta in *. destruct (Qltb_reflect d 0); [lra|reflexivity]. }
  pose proof (mean_of_zeros _ (Forall_firstn _ period _ Hg)) as Hag.
  pose proof (mean_of_zeros _ (Forall_firstn _ period _ Hl)) as Hal.
  apply Qeq_bool_iff in Hal. rewrite Hal.
  unfold RSIStrategy.zero_loss_rsi.
  destruct (Qltb_reflect 0 (Np.mean (firstn period gains))); [lra|reflexivity].
Qed.

Lemma X3_witness : RSIStrategy.calculate_rsi (repeat 100 30) 14 = 50.
Proof.
  apply (X3_rsi_of_flat_series (repeat 100 30) 100 14).
  - lia.
  - unfold Shapes.flat_closes. apply Forall_forall.
    intros x Hx. apply repeat_spec in Hx. subst x. reflexivity.
Defined.

(** ** Means of bounded lists *)

Lemma len_cons {A} (x : A) (l : list A) : Py.len (x :: l) == 1 + Py.len l.
Proof.
  unfold Py.len. cbn [length]. rewrite Nat2Z.inj_succ, <- Z.add_1_l.
  rewrite inject_Z_plus. reflexivity.
Qed.

Lemma fold_Qplus_bounds (lo hi : Q) (l : list Q) (acc : Q) :
  Forall (fun x => lo <= x <= hi) l ->
  acc + lo * Py.len l <= fold_left Qplus l acc <= acc + hi * Py.len l.
Proof.
  intro H. revert acc. induction H as [|x l Hx _ IH]; intro acc.
  - cbn [fold_left]. change (Py.len (@nil Q)) with 0. lra.
  - cbn [fold_left]. specialize (IH (acc + x)).
    rewrite len_cons. lra.
Qed.

Lemma mean_range (lo hi : Q) (l : list Q) :
  l <> [] -> Forall (fun x => lo <= x <= hi) l -> lo <= Np.mean l <= hi.
Proof.
  intros Hne H. pose proof (len_positive l Hne) as Hlen.
  pose proof (fold_Qplus_bounds lo hi l 0 H) as [Hlo Hhi].
  unfold Np.mean, Py.sum. split.
  - apply Qle_shift_div_l; [assumption | lra].
  - apply Qle_shift_div_r; [assumption | lra].
Qed.

Lemma mean_all_equal (c : Q) (l : list Q) :
  l <> [] -> Forall (fun x => x == c) l -> Np.mean l == c.
Proof.
  intros Hne H.
  assert (H' : Forall (fun x => c <= x <= c) l).
  { eapply Forall_impl; [|exact H]. intros x Hx. cbv beta in *. lra. }
  pose proof (mean_range c c l Hne H'). lra.
Qed.

Lemma lastn_nonempty {A} (n : nat) (l : list A) :
  (1 <= n)%nat -> l <> [] -> Py.lastn n l <> [].
Proof.
  intros Hn Hl E. apply (f_equal (@length A)) in E.
  unfold Py.lastn in E. destruct n; [lia|].
  rewrite length_skipn in E. cbn [length] in E.
  destruct l; [contradiction|]. cbn [length] in E. lia.
Qed.

(** ** ADX: directional movement, range, history *)

Lemma py_max_ge_r (a b : Q) : b <= Py.max a b.
Proof. unfold Py.max. destruct (Qltb_reflect a b); lra. Qed.

Lemma py_max_ge_l (a b : Q) : a <= Py.max a b.
Proof. unfold Py.max. destruct (Qltb_reflect a b); lra. Qed.

Lemma floored_atr_pos (a : Q) : 0 < Py.max a RSIStrategy.atr_floor.
Proof.
  pose proof (py_max_ge_r a RSIStrategy.atr_floor) as H.
  unfold RSIStrategy.atr_floor in *. lra.
Qed.

Lemma plus_dm_nonneg (prev cur : kline) : 0 <= RSIStrategy.plus_dm_of prev cur.
Proof.
  unfold RSIStrategy.plus_dm_of. cbv zeta.
  destruct (Qltb_reflect (low prev - low cur) (high cur - high prev));
    destruct (Qltb_reflect 0 (high cur - high prev)); cbn [andb]; lra.
Qed.

Lemma minus_dm_nonneg (prev cur : kline) : 0 <= RSIStrategy.minus_dm_of prev cur.
Proof.
  unfold RSIStrategy.minus_dm_of. cbv zeta.
  destruct (Qltb_reflect (high cur - high prev) (low prev - low cur));
    destruct (Qltb_reflect 0 (low prev - low cur)); cbn [andb]; lra.
Qed.

(** X4: the directional movement of a pair of klines is one-sided: +DM and
    -DM are never negative and never both non-zero; and the true range is
    never negative and at least high - low, whatever the kline holds. *)
Theorem X4_directional_movement_one_sided (prev cur : kline) :
  0 <= RSIStrategy.plus_dm_of prev cur /\
  0 <= RSIStrategy.minus_dm_of prev cur /\
  (RSIStrategy.plus_dm_of prev cur = 0 \/ RSIStrategy.minus_dm_of prev cur = 0) /\
  0 <= RSIStrategy.true_range prev cur /\
  high cur - low cur <= RSIStrategy.true_range prev cur.
Proof.
  split; [apply plus_dm_nonneg|]. split; [apply minus_dm_nonneg|]. split.
  - unfold RSIStrategy.plus_dm_of, RSIStrategy.minus_dm_of. cbv zeta.
    destruct (Qltb_reflect (low prev - low cur) (high cur - high prev));
      destruct (Qltb_reflect (high cur - high prev) (low prev - low cur));
      cbn [andb]; try lra; auto.
  - unfold RSIStrategy.true_range, Py.max3.
    set (a := high cur - low cur).
    set (b := Qabs (high cur - close prev)).
    pose proof (Qabs_nonneg (high cur - close prev)) as Hb. fold b in Hb.
    pose proof (py_max_ge_l (Py.max a b) (Qabs (low cur - close prev))) as H1.
    pose proof (py_max_ge_l a b) as H2.
    pose proof (py_max_ge_r a b) as H3.
    split; lra.
Qed.


Lemma clip_pos (x : Q) :
  0 < x -> 0 < Np.clip x (- RSIStrategy.di_bound) RSIStrategy.di_bound.
Proof.
  intro H. unfold Np.clip, Py.max, Py.min, RSIStrategy.di_bound.
  destruct (Qltb_reflect x (- (100000))); [lra|].
  destruct (Qltb_reflect 100000 x); lra.
Qed.


Lemma scaled_pos (m a : Q) : 0 < m -> 0 < a -> 0 < 100 * m / a.
Proof. intros Hm Ha. apply Qlt_shift_div_l; lra. Qed.






Lemma adx_values_length (period : nat) (l : list (Q * (Q * Q)))
      (s : RSIStrategy.adx_acc) :
  length (RSIStrategy.adx_values (fold_left (RSIStrategy.adx_step period) l s))
  = (length (RSIStrategy.adx_values s) + length l)%nat.
Proof.
  revert s. induction l as [|x l IH]; intro s.
  - cbn. lia.
  - cbn [fold_left length]. rewrite IH.
    destruct x as [tr_i [pdm mdm]]. unfold RSIStrategy.adx_step. cbv zeta.
    cbn [RSIStrategy.adx_values]. rewrite length_app. cbn [length]. lia.
Qed.

Lemma adx_history_length (klines : list kline) (period : nat)
      (st : RSIStrategy.adx_acc) :
  RSIStrategy.adx_loop klines period = Some st ->
  length (RSIStrategy.adx_values st) = (length klines - period)%nat.
Proof.
  unfold RSIStrategy.adx_loop.
  destruct (Nat.ltb_spec (length klines) (period + 1)); [discriminate|].
  cbv zeta.
  destruct (Nat.ltb_spec (length (RSIStrategy.tr_values_of klines)) period);
    [discriminate|].
  intro E. inversion E as [E']. clear E E'.
  rewrite adx_values_length. cbn [RSIStrategy.adx_seed RSIStrategy.adx_values length].
  rewrite !length_combine, !length_skipn.
  unfold RSIStrategy.tr_values_of, RSIStrategy.plus_dm_list,
    RSIStrategy.minus_dm_list.
  rewrite !length_map, !pairs_length. lia.
Qed.



(** X6: when calculate_adx does not return early (at least period+1 klines,
    period >= 1), the dx history holds len(klines) - period values, and the
    returned ADX is the mean of the last min(period, len(klines) - period)
    of them: a full period of dx values needs 2*period klines. *)
Theorem X6_adx_history (klines : list kline) (period : nat) :
  (1 <= period)%nat ->
  (period + 1 <= length klines)%nat ->
  exists st,
    RSIStrategy.adx_loop klines period = Some st /\
    length (RSIStrategy.adx_values st) = (length klines - period)%nat /\
    length (Py.lastn period (RSIStrategy.adx_values st))
    = Nat.min period (length klines - period) /\
    RSIStrategy.calculate_adx klines period
    = Np.mean (Py.lastn period (RSIStrategy.adx_values st)).
Proof.
  intros Hper Hlen.
  destruct (RSIStrategy.adx_loop klines period) as [st|] eqn:E.
  - pose proof (adx_history_length klines period st E) as Hl.
    exists st. split; [reflexivity|]. split; [exact Hl|]. split.
    + unfold Py.lastn. destruct period; [lia|].
      rewrite length_skipn. lia.
    + unfold RSIStrategy.calculate_adx. rewrite E.
      destruct (RSIStrategy.adx_values st); [cbn in Hl; lia | reflexivity].
  - exfalso. unfold RSIStrategy.adx_loop in E.
    destruct (Nat.ltb_spec (length klines) (period + 1)); [lia|].
    cbv zeta in E.
    destruct (Nat.ltb_spec (length (RSIStrategy.tr_values_of klines)) period)
      as [H'|]; [|discriminate].
    unfold RSIStrategy.tr_values_of in H'.
    rewrite length_map, pairs_length in H'. lia.
Qed.

Lemma X6_witness :
  exists st,
    RSIStrategy.adx_loop Samples.zigzag17 14 = Some st /\
    length (Py.lastn 14 (RSIStrategy.adx_values st)) = 3%nat.
Proof.
  assert (H1 : (1 <= 14)%nat) by lia.
  assert (H2 : (14 + 1 <= length Samples.zigzag17)%nat) by (vm_compute; lia).
  destruct (X6_adx_history Samples.zigzag17 14 H1 H2) as (st & E & _ & Hl & _).
  exists st. split; [exact E|]. rewrite Hl. reflexivity.
Defined.

(** ** ADX on a one-directional trend *)

Lemma dx_of_plus_only (p m : Q) :
  0 < p -> m == 0 -> RSIStrategy.dx_of p m == 100.
Proof.
  intros Hp Hm. unfold RSIStrategy.dx_of.
  destruct (Qeq_bool (p + m) 0) eqn:E; [apply Qeq_bool_iff in E; lra|].
  assert (Ea : Qabs (p - m) == p + m).
  { rewrite Qabs_pos by lra. lra. }
  rewrite Ea. field. lra.
Qed.

Lemma dx_of_minus_only (p m : Q) :
  p == 0 -> 0 < m -> RSIStrategy.dx_of p m == 100.
Proof.
  intros Hp Hm. unfold RSIStrategy.dx_of.
  destruct (Qeq_bool (p + m) 0) eqn:E; [apply Qeq_bool_iff in E; lra|].
  assert (Ea : Qabs (p - m) == p + m).
  { rewrite Qabs_neg by lra. lra. }
  rewrite Ea. field. lra.
Qed.

Lemma up_trend_movement (klines : list kline) :
  Shapes.up_trend klines ->
  Forall (fun x => 0 < x) (RSIStrategy.plus_dm_list klines) /\
  Forall (fun x => x = 0) (RSIStrategy.minus_dm_list klines).
Proof.
  intro H. unfold RSIStrategy.plus_dm_list, RSIStrategy.minus_dm_list.
  split; apply Forall_map; (eapply Forall_impl; [|exact H]);
    intros [prev cur]; cbn [fst snd]; intros [Hh Hl].
  - unfold RSIStrategy.plus_dm_of. cbv zeta.
    destruct (Qltb_reflect (low prev - low cur) (high cur - high prev));
      destruct (Qltb_reflect 0 (high cur - high prev)); cbn [andb]; lra.
  - unfold RSIStrategy.minus_dm_of. cbv zeta.
    destruct (Qltb_reflect (high cur - high prev) (low prev - low cur));
      [lra | reflexivity].
Qed.

Lemma down_trend_movement (klines : list kline) :
  Shapes.down_trend klines ->
  Forall (fun x => x = 0) (RSIStrategy.plus_dm_list klines) /\
  Forall (fun x => 0 < x) (RSIStrategy.minus_dm_list klines).
Proof.
  intro H. unfold RSIStrategy.plus_dm_list, RSIStrategy.minus_dm_list.
  split; apply Forall_map; (eapply Forall_impl; [|exact H]);
    intros [prev cur]; cbn [fst snd]; intros [Hl Hh].
  - unfold RSIStrategy.plus_dm_of. cbv zeta.
    destruct (Qltb_reflect (low prev - low cur) (high cur - high prev));
      [lra | reflexivity].
  - unfold RSIStrategy.minus_dm_of. cbv zeta.
    destruct (Qltb_reflect (high cur - high prev) (low prev - low cur));
      destruct (Qltb_reflect 0 (low prev - low cur)); cbn [andb]; lra.
Qed.

(** The loop of [calculate_adx] when only one of the two movements ever
    occurs: that index stays positive, the other stays zero, every dx is
    100. *)
Lemma adx_loop_one_sided (up : bool) (klines : list kline) (period : nat)
      (st : RSIStrategy.adx_acc) :
  (1 <= period)%nat ->
  (if up then
     Forall (fun x => 0 < x) (RSIStrategy.plus_dm_list klines) /\
     Forall (fun x => x = 0) (RSIStrategy.minus_dm_list klines)
   else
     Forall (fun x => x = 0) (RSIStrategy.plus_dm_list klines) /\
     Forall (fun x => 0 < x) (RSIStrategy.minus_dm_list klines)) ->
  RSIStrategy.adx_loop klines period = Some st ->
  Forall (fun x => x == 100) (RSIStrategy.adx_values st).
Proof.
  intros Hper Hdm. pose proof (of_nat_ge_1 period Hper) as Hn.
  unfold RSIStrategy.adx_loop.
  destruct (Nat.ltb_spec (length klines) (period + 1)) as [|Hlen];
    [discriminate|].
  cbv zeta.
  destruct (Nat.ltb_spec (length (RSIStrategy.tr_values_of klines)) period);
    [discriminate|].
  intro E. inversion E as [E']. clear E E'.
  assert (Hlp : (1 <= length (RSIStrategy.plus_dm_list klines))%nat)
    by (unfold RSIStrategy.plus_dm_list; rewrite length_map, pairs_length; lia).
  assert (Hlm : (1 <= length (RSIStrategy.minus_dm_list klines))%nat)
    by (unfold RSIStrategy.minus_dm_list; rewrite length_map, pairs_length; lia).
  set (inv := fun s : RSIStrategy.adx_acc =>
                (if up
                 then 0 < RSIStrategy.plus_di s /\ RSIStrategy.minus_di s == 0
                 else RSIStrategy.plus_di s == 0 /\ 0 < RSIStrategy.minus_di s)
                /\ Forall (fun x => x == 100) (RSIStrategy.adx_values s)).
  set (ok := fun x : Q * (Q * Q) =>
               if up then 0 < fst (snd x) /\ snd (snd x) = 0
               else fst (snd x) = 0 /\ 0 < snd (snd x)).
  assert (Hinv : inv (fold_left (RSIStrategy.adx_step period)
            (combine (skipn period (RSIStrategy.tr_values_of klines))
               (combine (skipn period (RSIStrategy.plus_dm_list klines))
                  (skipn period (RSIStrategy.minus_dm_list klines))))
            (RSIStrategy.adx_seed period (RSIStrategy.tr_values_of klines)
               (RSIStrategy.plus_dm_list klines)
               (RSIStrategy.minus_dm_list klines))));
    [|exact (proj2 Hinv)].
  apply fold_left_invariant with (ok := ok).
  - (* step *)
    intros s [tr_i [pdm mdm]] [Hdi Hv] Hx. unfold ok in Hx. cbn [fst snd] in Hx.
    unfold inv, RSIStrategy.adx_step. cbv zeta.
    match goal with
    | |- context [Py.max ?e RSIStrategy.atr_floor] =>
        pose proof (floored_atr_pos e) as Ha;
        set (a := Py.max e RSIStrategy.atr_floor) in *
    end.
    cbn [RSIStrategy.plus_di RSIStrategy.minus_di RSIStrategy.adx_values].
    destruct up.
    + destruct Hdi as [Hp Hm]. destruct Hx as [Hx1 ->].
      assert (Hp' : 0 < Np.clip
                (100 * ((RSIStrategy.plus_di s * (Py.of_nat period - 1) + pdm)
                        / Py.of_nat period) / a)
                (- RSIStrategy.di_bound) RSIStrategy.di_bound)
        by (apply clip_pos, scaled_pos; [apply wilder_pos; lra | assumption]).
      pose proof (scaled_zero_di _ a
                    (wilder_zero _ (Py.of_nat period) Hm)) as Hm'.
      split; [split; assumption|].
      apply Forall_app. split; [assumption|].
      constructor; [|constructor]. now apply dx_of_plus_only.
    + destruct Hdi as [Hp Hm]. destruct Hx as [-> Hx2].
      assert (Hm' : 0 < Np.clip
                (100 * ((RSIStrategy.minus_di s * (Py.of_nat period - 1) + mdm)
                        / Py.of_nat period) / a)
                (- RSIStrategy.di_bound) RSIStrategy.di_bound)
        by (apply clip_pos, scaled_pos; [apply wilder_pos; lra | assumption]).
      pose proof (scaled_zero_di _ a
                    (wilder_zero _ (Py.of_nat period) Hp)) as Hp'.
      split; [split; assumption|].
      apply Forall_app. split; [assumption|].
      constructor; [|constructor]. now apply dx_of_minus_only.
  - (* seed *)
    unfold inv, RSIStrategy.adx_seed. cbv zeta.
    pose proof (floored_atr_pos
                  (Np.mean (firstn period (RSIStrategy.tr_values_of klines))))
      as Ha.
    set (a := Py.max _ RSIStrategy.atr_floor) in *.
    cbn [RSIStrategy.plus_di RSIStrategy.minus_di RSIStrategy.adx_values].
    destruct up; destruct Hdm as [Hp Hm].
    + pose proof (mean_positive _
                    (firstn_nonempty period _ Hper Hlp)
                    (Forall_firstn _ period _ Hp)) as Hmp.
      pose proof (clip_pos _ (scaled_pos _ a Hmp Ha)) as Hp'.
      pose proof (scaled_zero_di _ a
                    (mean_of_zeros _ (Forall_firstn _ period _ Hm))) as Hm'.
      split; [split; assumption|].
      constructor; [|constructor]. now apply dx_of_plus_only.
    + pose proof (mean_positive _
                    (firstn_nonempty period _ Hper Hlm)
                    (Forall_firstn _ period _ Hm)) as Hmm.
      pose proof (clip_pos _ (scaled_pos _ a Hmm Ha)) as Hm'.
      pose proof (scaled_zero_di _ a
                    (mean_of_zeros _ (Forall_firstn _ period _ Hp))) as Hp'.
      split; [split; assumption|].
      constructor; [|constructor]. now apply dx_of_minus_only.
  - (* inputs *)
    unfold ok. destruct up; destruct Hdm as [Hp Hm].
    + apply (Forall_combine_snd (fun y : Q * Q => 0 < fst y /\ snd y = 0)).
      apply (Forall_combine (fun x => 0 < x) (fun x => x = 0));
        now apply Forall_skipn.
    + apply (Forall_combine_snd (fun y : Q * Q => fst y = 0 /\ 0 < snd y)).
      apply (Forall_combine (fun x => x = 0) (fun x => 0 < x));
        now apply Forall_skipn.
Qed.

Lemma adx_one_sided_100 (up : bool) (klines : list kline) (period : nat) :
  (1 <= period)%nat ->
  (period + 1 <= length klines)%nat ->
  (if up then Shapes.up_trend klines else Shapes.down_trend klines) ->
  RSIStrategy.calculate_adx klines period == 100.
Proof.
  intros Hper Hlen Htrend.
  assert (Hdm : if up then
     Forall (fun x => 0 < x) (RSIStrategy.plus_dm_list klines) /\
     Forall (fun x => x = 0) (RSIStrategy.minus_dm_list klines)
   else
     Forall (fun x => x = 0) (RSIStrategy.plus_dm_list klines) /\
     Forall (fun x => 0 < x) (RSIStrategy.minus_dm_list klines)).
  { destruct up; [now apply up_trend_movement | now apply down_trend_movement]. }
  unfold RSIStrategy.calculate_adx.
  destruct (RSIStrategy.adx_loop klines period) as [st|] eqn:E.
  - pose proof (adx_loop_one_sided up klines period st Hper Hdm E) as Hv.
    pose proof (adx_history_length klines period st E) as Hl.
    destruct (RSIStrategy.adx_values st) as [|d ds] eqn:Ev;
      [cbn in Hl; lia|].
    apply mean_all_equal.
    + apply lastn_nonempty; [assumption | discriminate].
    + now apply Forall_lastn.
  - exfalso. unfold RSIStrategy.adx_loop in E.
    destruct (Nat.ltb_spec (length klines) (period + 1)); [lia|].
    cbv zeta in E.
    destruct (Nat.ltb_spec (length (RSIStrategy.tr_values_of klines)) period)
      as [H'|]; [|discriminate].
    unfold RSIStrategy.tr_values_of in H'.
    rewrite length_map, pairs_length in H'. lia.
Qed.


Ltac prove_trend :=
  cbv [Samples.rally Samples.slump Samples.candle seq map Py.pairs
       high low close];
  repeat (constructor; [split; unfold Qlt, Qle; simpl; lia |]);
  try constructor.


(** ** The RSI+ADX engine: further behaviour *)

Lemma adaptive_period_bounds (volatility : option Q) :
  (5 <= RSIStrategy.adaptive_period volatility <= 20)%Z.
Proof.
  destruct volatility as [v|]; [|cbn; lia].
  unfold RSIStrategy.adaptive_period. cbv zeta.
  rewrite py_clampZ_is_clampZ by lia. unfold Spec.clampZ.
  destruct (Z.ltb_spec (Py.int (Py.of_nat RSIStrategy.base_period * (1 - v))) 5);
    [lia|].
  destruct (Z.ltb_spec 20 (Py.int (Py.of_nat RSIStrategy.base_period * (1 - v))));
    lia.
Qed.

Lemma rsi_of_rising (closes : list Q) (period : nat) :
  (1 <= period)%nat ->
  (period < length closes)%nat ->
  Spec.strictly_increasing closes ->
  RSIStrategy.calculate_rsi closes period = 100.
Proof.
  intros Hp Hlen Hinc.
  pose proof (diff_of_increasing closes Hinc) as Hd.
  unfold RSIStrategy.calculate_rsi.
  destruct (Nat.ltb_spec (length closes) (period + 1)) as [Hlt|_]; [lia|].
  cbv zeta.
  set (gains := map (fun d => if Py.Qltb 0 d then d else 0) (Np.diff closes)).
  set (losses := map (fun d => if Py.Qltb d 0 then - d else 0) (Np.diff closes)).
  assert (Hg : Forall (fun x => 0 < x) gains).
  { apply Forall_map. eapply Forall_impl; [|exact Hd].
    intros d H. cbv beta in *.
    destruct (Qltb_reflect 0 d); [assumption|contradiction]. }
  assert (Hl : Forall (fun x => x = 0) losses).
  { apply Forall_map. eapply Forall_impl; [|exact Hd].
    intros d H. cbv beta in *.
    destruct (Qltb_reflect d 0); [lra|reflexivity]. }
  assert (Hne : firstn period gains <> []).
  { apply firstn_nonempty; [assumption|].
    unfold gains. rewrite length_map, diff_length. lia. }
  pose proof (mean_of_zeros _ (Forall_firstn _ period _ Hl)) as Hal.
  apply Qeq_bool_iff in Hal. rewrite Hal.
  pose proof (mean_positive _ Hne (Forall_firstn _ period _ Hg)) as Hag.
  unfold RSIStrategy.zero_loss_rsi.
  destruct (Qltb_reflect 0 (Np.mean (firstn period gains)));
    [reflexivity | contradiction].
Qed.

Lemma generate_signal_short (klines : list kline) (volatility : option Q) :
  (length klines < RSIStrategy.base_period + 1)%nat ->
  RSIStrategy.generate_signal (Py.Ok klines) volatility = Py.Ok "hold"%string.
Proof.
  intro H. unfold RSIStrategy.generate_signal. cbn [Py.bind].
  destruct klines as [|k0 klines']; [reflexivity|].
  rewrite length_map.
  destruct (Nat.ltb_spec (length (k0 :: klines')) (RSIStrategy.base_period + 1));
    [reflexivity | lia].
Qed.

Lemma veto_iff (c : Q) :
  Np.lt (RSIStrategy.order_quantity c) RSIStrategy.min_order_size = true
  <-> c < 0 \/ 100 < c.
Proof.
  destruct (Qlt_le_dec 0 c) as [Hpos|Hle].
  - rewrite (quantity_below_minimum_iff c Hpos). split; [auto|].
    intros [H|H]; [lra | assumption].
  - destruct (Qeq_bool c 0) eqn:E.
    + unfold RSIStrategy.order_quantity, Np.truediv. rewrite E.
      cbn. apply Qeq_bool_iff in E. split; [discriminate|].
      intros [H|H]; lra.
    + assert (Hneg : c < 0).
      { apply Qeq_bool_neq in E.
        destruct (Qlt_le_dec c 0); [assumption|]. exfalso. apply E. lra. }
      unfold RSIStrategy.order_quantity, Np.truediv. rewrite E.
      cbn [Np.lt]. rewrite Qltb_true_iff.
      split; [auto|]. intros _.
      assert (Hq : (1 # 10) / c == - ((1 # 10) / - c)) by (field; lra).
      assert (Hp : 0 < (1 # 10) / - c) by (apply Qlt_shift_div_l; lra).
      unfold RSIStrategy.min_order_size. lra.
Qed.

(** With enough klines and a volatility, the call returns 'hold' when the
    veto fires and the indicator decision otherwise. *)
Lemma generate_signal_result (klines : list kline) (v c : Q) :
  (RSIStrategy.base_period + 1 <= length klines)%nat ->
  Py.last_item (map close klines) = Py.Ok c ->
  RSIStrategy.generate_signal (Py.Ok klines) (Some v)
  = Py.Ok
      (if Np.lt (RSIStrategy.order_quantity c) RSIStrategy.min_order_size
       then "hold"%string
       else RSIStrategy.decide
              (RSIStrategy.calculate_rsi (map close klines)
                 (Z.to_nat (RSIStrategy.adaptive_period (Some v))))
              (RSIStrategy.calculate_adx klines 14)
              (RSIStrategy.overbought_threshold (v * 10))
              (RSIStrategy.oversold_threshold (v * 10))
              (RSIStrategy.adx_threshold (v * 10))).
Proof.
  intros Hlen Hlast.
  rewrite (generate_signal_supplied klines v Hlen).
  unfold RSIStrategy.min_order_veto. rewrite Hlast. cbn [Py.bind].
  match goal with
  | |- context [negb (String.eqb ?s ?h)] =>
      destruct (String.eqb_spec s h) as [E|_]
  end; cbn [negb].
  - rewrite E. cbn [Py.try_except]. now destruct (Np.lt _ _).
  - destruct (Np.lt _ _); reflexivity.
Qed.



Lemma decide_sell (rsi adx ob os thr : Q) :
  ob < rsi -> thr < adx -> RSIStrategy.decide rsi adx ob os thr = "sell"%string.
Proof.
  intros H1 H2. unfold RSIStrategy.decide.
  apply Qltb_true_iff in H1, H2. now rewrite H1, H2.
Qed.

Lemma decide_buy (rsi adx ob os thr : Q) :
  rsi <= ob -> rsi < os -> thr < adx ->
  RSIStrategy.decide rsi adx ob os thr = "buy"%string.
Proof.
  intros H0 H1 H2. unfold RSIStrategy.decide.
  apply Qltb_false_iff in H0. apply Qltb_true_iff in H1, H2.
  now rewrite H0, H1, H2.
Qed.

Lemma decide_hold_weak_trend (rsi adx ob os thr : Q) :
  adx <= thr -> RSIStrategy.decide rsi adx ob os thr = "hold"%string.
Proof.
  intro H. unfold RSIStrategy.decide. apply Qltb_false_iff in H.
  rewrite H, !andb_false_r. reflexivity.
Qed.

Lemma decide_hold_neutral (rsi adx ob os thr : Q) :
  rsi <= ob -> os <= rsi -> RSIStrategy.decide rsi adx ob os thr = "hold"%string.
Proof.
  intros H1 H2. unfold RSIStrategy.decide. apply Qltb_false_iff in H1, H2.
  now rewrite H1, H2.
Qed.


Lemma threshold_bounds (v10 : Q) :
  50 <= RSIStrategy.overbought_threshold v10 <= 80 /\
  20 <= RSIStrategy.oversold_threshold v10 <= 50 /\
  10 <= RSIStrategy.adx_threshold v10 <= 30.
Proof.
  unfold RSIStrategy.overbought_threshold, RSIStrategy.oversold_threshold,
    RSIStrategy.adx_threshold.
  repeat split; apply py_clamp_range; lra.
Qed.

(** X9: end to end, for every volatility: on at least 21 klines with
    strictly rising closes that form an up-trend, and a latest close in
    [0, 100], the RSI+ADX engine returns 'sell'; with strictly falling
    closes that form a down-trend it returns 'buy'. *)
Theorem X9_clean_trends_trade (klines : list kline) (v c : Q) :
  (21 <= length klines)%nat ->
  Py.last_item (map close klines) = Py.Ok c ->
  0 <= c <= 100 ->
  (Spec.strictly_increasing (map close klines) -> Shapes.up_trend klines ->
   RSIStrategy.generate_signal (Py.Ok klines) (Some v) = Py.Ok "sell"%string) /\
  (Shapes.strictly_decreasing (map close klines) -> Shapes.down_trend klines ->
   RSIStrategy.generate_signal (Py.Ok klines) (Some v) = Py.Ok "buy"%string).
Proof.
  intros Hlen Hlast Hc.
  assert (Hlen15 : (RSIStrategy.base_period + 1 <= length klines)%nat)
    by (unfold RSIStrategy.base_period; lia).
  pose proof (adaptive_period_bounds (Some v)) as Hper.
  pose proof (threshold_bounds (v * 10)) as (Hob & Hos & Hthr).
  assert (Hveto : Np.lt (RSIStrategy.order_quantity c)
                        RSIStrategy.min_order_size = false).
  { destruct (Np.lt _ _) eqn:E; [|reflexivity].
    apply veto_iff in E. lra. }
  rewrite (generate_signal_result klines v c Hlen15 Hlast), Hveto.
  split; intros Hcl Htr; f_equal.
  - assert (Hrsi : RSIStrategy.calculate_rsi (map close klines)
                     (Z.to_nat (RSIStrategy.adaptive_period (Some v))) = 100)
      by (apply rsi_of_rising; [lia | rewrite length_map; lia | assumption]).
    assert (Hadx : RSIStrategy.calculate_adx klines 14 == 100)
      by (apply (adx_one_sided_100 true); [lia | lia | assumption]).
    rewrite Hrsi. apply decide_sell; lra.
  - assert (Hrsi : RSIStrategy.calculate_rsi (map close klines)
                     (Z.to_nat (RSIStrategy.adaptive_period (Some v))) == 0)
      by (apply rsi_of_falling; [lia | rewrite length_map; lia | assumption]).
    assert (Hadx : RSIStrategy.calculate_adx klines 14 == 100)
      by (apply (adx_one_sided_100 false); [lia | lia | assumption]).
    apply decide_buy; lra.
Qed.

Lemma X9_witness :
  RSIStrategy.generate_signal (Py.Ok (Samples.rally 10 21)) (Some (1 # 5))
  = Py.Ok "sell"%string /\
  RSIStrategy.generate_signal (Py.Ok (Samples.slump 50 21)) (Some (1 # 5))
  = Py.Ok "buy"%string.
Proof.
  split.
  - apply (proj1 (X9_clean_trends_trade (Samples.rally 10 21) (1 # 5) 30
                    ltac:(vm_compute; lia) ltac:(vm_compute; reflexivity)
                    ltac:(split; unfold Qle; simpl; lia))).
    + unfold Spec.strictly_increasing. prove_trend.
    + unfold Shapes.up_trend. prove_trend.
  - apply (proj2 (X9_clean_trends_trade (Samples.slump 50 21) (1 # 5) 30
                    ltac:(vm_compute; lia) ltac:(vm_compute; reflexivity)
                    ltac:(split; unfold Qle; simpl; lia))).
    + unfold Shapes.strictly_decreasing. prove_trend.
    + unfold Shapes.down_trend. prove_trend.
Defined.



Lemma adx_of_constant_price (p : Q) (klines : list kline) (period : nat) :
  Spec.constant_price p klines ->
  RSIStrategy.calculate_adx klines period == 0.
Proof.
  intro Hc. unfold RSIStrategy.calculate_adx.
  destruct (RSIStrategy.adx_loop klines period) as [st|] eqn:E; [|reflexivity].
  destruct (adx_loop_quiet p klines period st Hc E) as (_ & _ & Hv).
  destruct (RSIStrategy.adx_values st) as [|d ds] eqn:Ev; [reflexivity|].
  apply mean_of_zeros. now apply Forall_lastn.
Qed.

(** X11: on constant-price klines (all highs, lows and closes equal) the
    RSI+ADX engine returns 'hold', for every length and every volatility,
    supplied or not: the ADX is 0 and never exceeds the ADX threshold. *)
Theorem X11_constant_price_holds
        (p : Q) (klines : list kline) (volatility : option Q) :
  Spec.constant_price p klines ->
  RSIStrategy.generate_signal (Py.Ok klines) volatility = Py.Ok "hold"%string.
Proof.
  intro Hc.
  destruct volatility as [v|]; [|apply generate_signal_without_volatility].
  destruct (Nat.le_gt_cases (RSIStrategy.base_period + 1) (length klines))
    as [Hlen|Hlen]; [|now apply generate_signal_short].
  pose proof (last_item_nonempty (map close klines) 0
                (closes_nonempty klines Hlen)) as Hlast.
  rewrite (generate_signal_result klines v _ Hlen Hlast).
  destruct (Np.lt _ _); [reflexivity|]. f_equal.
  apply decide_hold_weak_trend.
  pose proof (adx_of_constant_price p klines 14 Hc) as Hadx.
  pose proof (threshold_bounds (v * 10)) as (_ & _ & Hthr). lra.
Qed.

Lemma X11_witness :
  RSIStrategy.generate_signal (Py.Ok (repeat (Samples.flat 42) 30)) (Some (1 # 2))
  = Py.Ok "hold"%string.
Proof.
  apply (X11_constant_price_holds 42).
  unfold Spec.constant_price. apply Forall_forall.
  intros k Hk. apply repeat_spec in Hk. subst k.
  repeat split; reflexivity.
Defined.

Lemma py_clamp_monotone (x y lo hi : Q) :
  x <= y -> Py.max lo (Py.min hi x) <= Py.max lo (Py.min hi y).
Proof.
  intro H. unfold Py.max, Py.min.
  destruct (Qltb_reflect x hi); destruct (Qltb_reflect y hi);
    repeat match goal with
           | |- context [Py.Qltb ?a ?b] => destruct (Qltb_reflect a b)
           end; lra.
Qed.

Lemma py_clamp_low (x lo hi : Q) :
  lo <= hi -> x <= lo -> Py.max lo (Py.min hi x) == lo.
Proof.
  intros H Hx. rewrite py_clamp_is_clamp by assumption. unfold Spec.clamp.
  destruct (Qltb_reflect x lo); [reflexivity|].
  destruct (Qltb_reflect hi x); lra.
Qed.

Lemma py_clamp_high (x lo hi : Q) :
  lo <= hi -> hi <= x -> Py.max lo (Py.min hi x) == hi.
Proof.
  intros H Hx. rewrite py_clamp_is_clamp by assumption. unfold Spec.clamp.
  destruct (Qltb_reflect x lo); [lra|].
  destruct (Qltb_reflect hi x); lra.
Qed.

(** X12: the three decision bounds move one way with volatility: raising the
    volatility never raises the overbought bound and never lowers the
    oversold bound or the ADX bound; the oversold bound never exceeds the
    overbought bound (they are separated by 50); from volatility 2 on both
    RSI bounds sit at 50, and from 1.5 on the ADX bound sits at 30. *)
Theorem X12_thresholds_monotone (v w : Q) :
  v <= w ->
  RSIStrategy.overbought_threshold (w * 10)
  <= RSIStrategy.overbought_threshold (v * 10) /\
  RSIStrategy.oversold_threshold (v * 10)
  <= RSIStrategy.oversold_threshold (w * 10) /\
  RSIStrategy.adx_threshold (v * 10) <= RSIStrategy.adx_threshold (w * 10) /\
  RSIStrategy.oversold_threshold (v * 10) <= 50 /\
  50 <= RSIStrategy.overbought_threshold (v * 10) /\
  (2 <= v -> RSIStrategy.overbought_threshold (v * 10) == 50 /\
             RSIStrategy.oversold_threshold (v * 10) == 50) /\
  (3 # 2 <= v -> RSIStrategy.adx_threshold (v * 10) == 30).
Proof.
  intro H.
  pose proof (threshold_bounds (v * 10)) as (Hob & Hos & Hthr).
  unfold RSIStrategy.overbought_threshold, RSIStrategy.oversold_threshold,
    RSIStrategy.adx_threshold in *.
  split; [apply py_clamp_monotone; lra|].
  split; [apply py_clamp_monotone; lra|].
  split; [apply py_clamp_monotone; lra|].
  split; [lra|]. split; [lra|]. split.
  - intro Hv. split; [apply py_clamp_low | apply py_clamp_high]; lra.
  - intro Hv. apply py_clamp_high; lra.
Qed.

Lemma X12_witness :
  RSIStrategy.overbought_threshold (2 * 10) == 50 /\
  RSIStrategy.overbought_threshold (2 * 10)
  <= RSIStrategy.overbought_threshold ((1 # 2) * 10).
Proof.
  assert (H : 1 # 2 <= 2) by (unfold Qle; simpl; lia).
  assert (H2 : 2 <= 2) by (unfold Qle; simpl; lia).
  destruct (X12_thresholds_monotone (1 # 2) 2 H) as (Hmono & _).
  destruct (X12_thresholds_monotone 2 2 H2) as (_ & _ & _ & _ & _ & Hsat & _).
  split; [apply (Hsat H2) | exact Hmono].
Defined.

Lemma trunc_monotone (x y : Q) : x <= y -> (Spec.trunc x <= Spec.trunc y)%Z.
Proof.
  intro H. unfold Spec.trunc.
  destruct (Qle_bool 0 x) eqn:Ex; destruct (Qle_bool 0 y) eqn:Ey.
  - now apply Qfloor_resp_le.
  - apply Qle_bool_iff in Ex.
    assert (Hy : ~ 0 <= y) by (intro C; apply Qle_bool_iff in C; congruence).
    exfalso. apply Hy. lra.
  - apply Qle_bool_iff in Ey.
    assert (Hx : x <= 0).
    { destruct (Qlt_le_dec 0 x) as [C|C]; [|exact C].
      apply Qlt_le_weak, Qle_bool_iff in C. congruence. }
    apply Z.le_trans with 0%Z.
    + change 0%Z with (Qceiling 0). now apply Qceiling_resp_le.
    + change 0%Z with (Qfloor 0). now apply Qfloor_resp_le.
  - now apply Qceiling_resp_le.
Qed.

(** X13: the adaptive RSI period falls as volatility rises: for v <= w the
    period at w is at most the period at v; it is the base period 14 at
    volatility 0 and when no volatility is given, never above 14 for a
    non-negative volatility, and 5 for every volatility above 4/7. *)
Theorem X13_adaptive_period_monotone (v w : Q) :
  v <= w ->
  (RSIStrategy.adaptive_period (Some w) <= RSIStrategy.adaptive_period (Some v))%Z /\
  RSIStrategy.adaptive_period (Some 0) = 14%Z /\
  RSIStrategy.adaptive_period None = 14%Z /\
  (0 <= v -> (RSIStrategy.adaptive_period (Some v) <= 14)%Z) /\
  (4 # 7 < v -> RSIStrategy.adaptive_period (Some v) = 5%Z).
Proof.
  intro H.
  assert (Hmono : forall a b, a <= b ->
            (RSIStrategy.adaptive_period (Some b)
             <= RSIStrategy.adaptive_period (Some a))%Z).
  { intros a b Hab. unfold RSIStrategy.adaptive_period. cbv zeta.
    rewrite !py_clampZ_is_clampZ by lia. rewrite !int_is_trunc.
    assert (Ht : (Spec.trunc (Py.of_nat RSIStrategy.base_period * (1 - b))
                  <= Spec.trunc (Py.of_nat RSIStrategy.base_period * (1 - a)))%Z).
    { apply trunc_monotone.
      change (Py.of_nat RSIStrategy.base_period) with 14. lra. }
    unfold Spec.clampZ.
    repeat match goal with
           | |- context [(?a <? ?b)%Z] => destruct (Z.ltb_spec a b)
           end; lia. }
  split; [now apply Hmono|]. split; [reflexivity|]. split; [reflexivity|].
  split.
  - intro Hv. change 14%Z with (RSIStrategy.adaptive_period (Some 0)).
    now apply Hmono.
  - intro Hv. pose proof (adaptive_period_bounds (Some v)) as Hb.
    assert (Hle : (RSIStrategy.adaptive_period (Some v)
                   <= RSIStrategy.adaptive_period (Some (4 # 7)))%Z)
      by (apply Hmono; lra).
    assert (E : RSIStrategy.adaptive_period (Some (4 # 7)) = 6%Z) by reflexivity.
    assert (Hlt : RSIStrategy.adaptive_period (Some v) <> 6%Z).
    { unfold RSIStrategy.adaptive_period. cbv zeta.
      rewrite py_clampZ_is_clampZ by lia. rewrite int_is_trunc.
      assert (Hx : Py.of_nat RSIStrategy.base_period * (1 - v) < 6)
        by (change (Py.of_nat RSIStrategy.base_period) with 14; lra).
      set (x := Py.of_nat RSIStrategy.base_period * (1 - v)) in *.
      assert (Ht : (Spec.trunc x < 6)%Z).
      { unfold Spec.trunc. destruct (Qle_bool 0 x) eqn:Ex.
        - pose proof (Qfloor_le x) as Hf.
          apply Z.lt_nge. intro C. rewrite Zle_Qle in C.
          change (inject_Z 6) with 6 in C. lra.
        - assert (Hneg : x <= 0).
          { destruct (Qlt_le_dec 0 x) as [C|C]; [|exact C].
            apply Qlt_le_weak, Qle_bool_iff in C. congruence. }
          apply Z.le_lt_trans with 0%Z; [|lia].
          change 0%Z with (Qceiling 0). now apply Qceiling_resp_le. }
      unfold Spec.clampZ.
      repeat match goal with
             | |- context [(?a <? ?b)%Z] => destruct (Z.ltb_spec a b)
             end; lia. }
    lia.
Qed.

Lemma X13_witness :
  (RSIStrategy.adaptive_period (Some (9 # 10))
   <= RSIStrategy.adaptive_period (Some (1 # 5)))%Z /\
  RSIStrategy.adaptive_period (Some (9 # 10)) = 5%Z.
Proof.
  assert (H : 1 # 5 <= 9 # 10) by (unfold Qle; simpl; lia).
  assert (H' : 9 # 10 <= 9 # 10) by (unfold Qle; simpl; lia).
  split.
  - apply (proj1 (X13_adaptive_period_monotone (1 # 5) (9 # 10) H)).
  - apply (proj2 (proj2 (proj2 (proj2
             (X13_adaptive_period_monotone (9 # 10) (9 # 10) H'))))).
    reflexivity.
Defined.

(** X14: when the adaptive RSI period is not smaller than the number of
    klines (possible only for a negative volatility, which stretches the
    period up to 20), calculate_rsi falls back to the neutral 50, which
    never crosses a bound, and the engine returns 'hold'. *)
Theorem X14_rsi_window_longer_than_data (klines : list kline) (v : Q) :
  (Z.of_nat (length klines) <= RSIStrategy.adaptive_period (Some v))%Z ->
  RSIStrategy.calculate_rsi (map close klines)
    (Z.to_nat (RSIStrategy.adaptive_period (Some v))) = 50 /\
  RSIStrategy.generate_signal (Py.Ok klines) (Some v) = Py.Ok "hold"%string.
Proof.
  intro H.
  assert (Hrsi : RSIStrategy.calculate_rsi (map close klines)
                   (Z.to_nat (RSIStrategy.adaptive_period (Some v))) = 50).
  { unfold RSIStrategy.calculate_rsi. rewrite length_map.
    destruct (Nat.ltb_spec (length klines)
                (Z.to_nat (RSIStrategy.adaptive_period (Some v)) + 1));
      [reflexivity | lia]. }
  split; [exact Hrsi|].
  destruct (Nat.le_gt_cases (RSIStrategy.base_period + 1) (length klines))
    as [Hlen|Hlen]; [|now apply generate_signal_short].
  pose proof (last_item_nonempty (map close klines) 0
                (closes_nonempty klines Hlen)) as Hlast.
  rewrite (generate_signal_result klines v _ Hlen Hlast).
  destruct (Np.lt _ _); [reflexivity|]. f_equal.
  rewrite Hrsi.
  pose proof (threshold_bounds (v * 10)) as (Hob & Hos & _).
  apply decide_hold_neutral; lra.
Qed.

Lemma X14_witness :
  RSIStrategy.generate_signal (Py.Ok (Samples.rally 10 18)) (Some (- (1 # 2)))
  = Py.Ok "hold"%string.
Proof.
  apply (X14_rsi_window_longer_than_data (Samples.rally 10 18) (- (1 # 2))).
  vm_compute. discriminate.
Defined.

(** ** The mean-reversion engine: further behaviour *)

Lemma lastn_app {A} (n : nat) (l1 l2 : list A) :
  (1 <= n <= length l2)%nat -> Py.lastn n (l1 ++ l2) = Py.lastn n l2.
Proof.
  intro H. unfold Py.lastn. destruct n; [lia|].
  rewrite length_app, skipn_app.
  rewrite (@skipn_all2 _ (length l1 + length l2 - S n) l1) by lia.
  replace (length l1 + length l2 - S n - length l1)%nat
    with (length l2 - S n)%nat by lia.
  reflexivity.
Qed.

Lemma last_item_app {A} (l1 l2 : list A) :
  l2 <> [] -> Py.last_item (l1 ++ l2) = Py.last_item l2.
Proof.
  intro H. destruct (exists_last H) as [l' [x ->]].
  unfold Py.last_item. rewrite app_assoc, !rev_app_distr. reflexivity.
Qed.

Lemma last_item_lastn {A} (n : nat) (l : list A) :
  (1 <= n <= length l)%nat -> Py.last_item (Py.lastn n l) = Py.last_item l.
Proof.
  intro H. unfold Py.lastn. destruct n; [lia|].
  transitivity (Py.last_item (firstn (length l - S n) l
                              ++ skipn (length l - S n) l));
    [|now rewrite firstn_skipn].
  symmetry. apply last_item_app.
  intro E. apply (f_equal (@length A)) in E.
  rewrite length_skipn in E. cbn [length] in E. lia.
Qed.


Section MeanReversionBehaviour.

Variable pow_half : Q -> Q.

(** X15: the mean-reversion engine looks at the last 20 klines only: klines
    before them change neither the statistics nor the signal (nor the
    exception, if the analyzer raises). *)
Theorem X15_only_last_20_klines_matter
        (older recent : list kline) (vol : Py.result Q) :
  (20 <= length recent)%nat ->
  MeanReversionStrategy.generate_signal pow_half (Py.Ok (older ++ recent)) vol
  = MeanReversionStrategy.generate_signal pow_half
      (Py.Ok (Py.lastn 20 recent)) vol.
Proof.
  intro H.
  assert (Hne : recent <> []) by (intros ->; cbn in H; lia).
  assert (Hl20 : length (Py.lastn 20 recent) = 20%nat)
    by (apply lastn_length; lia).
  unfold MeanReversionStrategy.generate_signal,
    MeanReversionStrategy.lookback_period.
  cbn [Py.bind].
  destruct (Nat.ltb_spec (length (older ++ recent)) 20) as [C|_];
    [rewrite length_app in C; lia|].
  destruct (Nat.ltb_spec (length (Py.lastn 20 recent)) 20) as [C|_]; [lia|].
  rewrite (lastn_app 20 older recent) by lia.
  rewrite (last_item_app older recent Hne).
  rewrite (last_item_lastn 20 recent) by lia.
  assert (E : Py.lastn 20 (Py.lastn 20 recent) = Py.lastn 20 recent).
  { unfold Py.lastn at 1. rewrite Hl20. reflexivity. }
  rewrite E. reflexivity.
Qed.



End MeanReversionBehaviour.



Lemma X15_witness :
  MeanReversionStrategy.generate_signal MeanReversionStrategy.sqrt6
    (Py.Ok (Samples.rally 1 7 ++ Samples.spike20)) (Py.Ok (3 # 10))
  = MeanReversionStrategy.generate_signal MeanReversionStrategy.sqrt6
      (Py.Ok (Py.lastn 20 Samples.spike20)) (Py.Ok (3 # 10)).
Proof.
  apply X15_only_last_20_klines_matter. vm_compute. lia.
Defined.



(** ** MEXCAPI: parsing and the kline cache *)

Lemma append_assoc (a b c : string) : ((a ++ b) ++ c = a ++ (b ++ c))%string.
Proof.
  induction a as [|x a IH]; [reflexivity|]. cbn. now rewrite IH.
Qed.

Lemma append_length (a b : string) :
  String.length (a ++ b) = (String.length a + String.length b)%nat.
Proof.
  induction a as [|x a IH]; [reflexivity|]. cbn. now rewrite IH.
Qed.

Lemma append_cancel_l (a b c : string) : (a ++ b = a ++ c)%string -> b = c.
Proof.
  induction a as [|x a IH]; [auto|]. cbn. intro H. injection H as H. auto.
Qed.

Lemma append_cancel_r (a b c : string) : (a ++ c = b ++ c)%string -> a = b.
Proof.
  revert b. induction a as [|x a IH]; intros [|y b] H.
  - reflexivity.
  - apply (f_equal String.length) in H. cbn in H.
    rewrite append_length in H. lia.
  - apply (f_equal String.length) in H. cbn in H.
    rewrite append_length in H. lia.
  - cbn in H. injection H as Hx H. subst y. f_equal. now apply IH.
Qed.

Lemma to_int_not_nil (z : Z) :
  Z.to_int z <> Decimal.Pos Decimal.Nil /\ Z.to_int z <> Decimal.Neg Decimal.Nil.
Proof.
  destruct z; cbn; split; try discriminate; intro E; injection E as E;
    apply (DecimalPos.Unsigned.to_uint_nonnil p); exact E.
Qed.

Lemma str_int_inj (z z' : Z) : MEXCAPI.str_int z = MEXCAPI.str_int z' -> z = z'.
Proof.
  unfold MEXCAPI.str_int. intro E.
  apply (f_equal DecimalString.NilZero.int_of_string) in E.
  destruct (to_int_not_nil z), (to_int_not_nil z').
  rewrite !DecimalString.NilZero.isi in E by assumption.
  injection E as E. now apply DecimalZ.to_int_inj.
Qed.

Lemma path_join_cache_dir (b : string) :
  MEXCAPI.path_join MEXCAPI.cache_dir b
  = if MEXCAPI.starts_with_slash b then b
    else (MEXCAPI.cache_dir ++ "/" ++ b)%string.
Proof.
  unfold MEXCAPI.path_join. destruct (MEXCAPI.starts_with_slash b); reflexivity.
Qed.

Lemma starts_with_slash_prefix (s x y : string) :
  MEXCAPI.starts_with_slash (s ++ "_" ++ x)
  = MEXCAPI.starts_with_slash (s ++ "_" ++ y).
Proof.
  destruct s; reflexivity.
Qed.

Lemma cache_file_limit_inj (symbol timeframe : string) (limit limit' : Z) :
  MEXCAPI.cache_file symbol timeframe limit
  = MEXCAPI.cache_file symbol timeframe limit' ->
  limit = limit'.
Proof.
  unfold MEXCAPI.cache_file. rewrite !path_join_cache_dir.
  rewrite (starts_with_slash_prefix symbol
             (timeframe ++ "_" ++ MEXCAPI.str_int limit ++ ".pkl")
             (timeframe ++ "_" ++ MEXCAPI.str_int limit' ++ ".pkl")).
  intro H.
  assert (E : (symbol ++ "_" ++ timeframe ++ "_"
                 ++ MEXCAPI.str_int limit ++ ".pkl"
               = symbol ++ "_" ++ timeframe ++ "_"
                 ++ MEXCAPI.str_int limit' ++ ".pkl")%string).
  { destruct (MEXCAPI.starts_with_slash _); [exact H|].
    apply append_cancel_l in H. now apply (append_cancel_l "/") in H. }
  apply append_cancel_l in E. apply (append_cancel_l "_") in E.
  apply append_cancel_l in E. apply (append_cancel_l "_") in E.
  apply append_cancel_r in E. now apply str_int_inj.
Qed.

(** X18: cached klines are keyed by the limit: two requests for the same
    symbol and timeframe with different limits never share a cache file. *)
Theorem X18_cache_file_separates_limits
        (symbol timeframe : string) (limit limit' : Z) :
  limit <> limit' ->
  MEXCAPI.cache_file symbol timeframe limit
  <> MEXCAPI.cache_file symbol timeframe limit'.
Proof.
  intros Hne E. apply Hne. now apply (cache_file_limit_inj symbol timeframe).
Qed.

Lemma X18_witness :
  MEXCAPI.cache_file "BTCUSDT" "1h" 30 <> MEXCAPI.cache_file "BTCUSDT" "1h" 100.
Proof.
  apply X18_cache_file_separates_limits. discriminate.
Defined.

(** X19: the cache file name does not separate symbol from timeframe: the
    symbol s1_s2 with timeframe t and the symbol s1 with timeframe s2_t are
    different requests with the same cache file. *)
Theorem X19_cache_file_collision (s1 s2 timeframe : string) (limit : Z) :
  MEXCAPI.cache_file (s1 ++ "_" ++ s2) timeframe limit
  = MEXCAPI.cache_file s1 (s2 ++ "_" ++ timeframe) limit /\
  (s1 ++ "_" ++ s2)%string <> s1.
Proof.
  split.
  - unfold MEXCAPI.cache_file. f_equal.
    rewrite !append_assoc. reflexivity.
  - intro E. apply (f_equal String.length) in E.
    rewrite append_length in E. cbn in E. lia.
Qed.

Section MexcProperties.

Variable json : Type.
Variable to_int : json -> option Z.
Variable to_float : json -> option Q.

Local Abbreviation parse_kline := (MEXCAPI.parse_kline json to_int to_float).
Local Abbreviation parse_klines := (MEXCAPI.parse_klines json to_int to_float).
Local Abbreviation get_klines := (MEXCAPI.get_klines json to_int to_float).

Lemma parse_klines_rows (data : list (list json)) (klines : list kline) :
  parse_klines data = Some klines ->
  Forall2 (fun row k => parse_kline row = Some k) data klines.
Proof.
  revert klines. induction data as [|row rest IH]; intros klines H.
  - cbn in H. injection H as <-. constructor.
  - cbn in H.
    destruct (parse_kline row) as [k|] eqn:Ek; [|discriminate].
    destruct (parse_klines rest) as [ks|] eqn:Eks; [|discriminate].
    injection H as <-. constructor; [exact Ek | now apply IH].
Qed.

Lemma parse_klines_bad_row (data : list (list json)) (row : list json) :
  In row data -> parse_kline row = None -> parse_klines data = None.
Proof.
  intros Hin Hbad. induction data as [|r rest IH]; [contradiction|].
  cbn.
  destruct Hin as [->|Hin].
  - now rewrite Hbad.
  - destruct (parse_kline r); [|reflexivity].
    now rewrite (IH Hin).
Qed.

Lemma parse_kline_short_row (row : list json) :
  (length row < 6)%nat -> parse_kline row = None.
Proof.
  intro H. unfold MEXCAPI.parse_kline.
  assert (E : MEXCAPI.field json row 5 to_float = None).
  { unfold MEXCAPI.field.
    now rewrite (proj2 (nth_error_None row 5)) by lia. }
  rewrite E.
  repeat match goal with
         | |- context [match ?x with Some _ => _ | None => None end] =>
             destruct x
         end; reflexivity.
Qed.

(** X20: the API response is parsed all or nothing.  When it parses, the
    result has one kline per row, in order, each built from its row; one row
    that does not convert (for instance a row with fewer than six fields)
    makes the whole call return the empty list and leave the cache
    directory as it was. *)
Theorem X20_response_parsed_all_or_nothing
        (symbol timeframe : string) (limit : Z) (fs : MEXCAPI.filesystem)
        (data : list (list json)) (w : MEXCAPI.write_outcome) :
  MEXCAPI.load_cache (MEXCAPI.cache_file symbol timeframe limit) fs = None ->
  (forall klines,
      parse_klines data = Some klines ->
      fst (get_klines symbol timeframe limit fs (Some data) w) = klines /\
      length klines = length data /\
      Forall2 (fun row k => parse_kline row = Some k) data klines) /\
  (forall row,
      In row data -> parse_kline row = None ->
      get_klines symbol timeframe limit fs (Some data) w = ([], fs)) /\
  (forall row,
      In row data -> (length row < 6)%nat ->
      get_klines symbol timeframe limit fs (Some data) w = ([], fs)).
Proof.
  intro Hmiss.
  assert (Hbad : forall row, In row data -> parse_kline row = None ->
            get_klines symbol timeframe limit fs (Some data) w = ([], fs)).
  { intros row Hin Hrow.
    unfold MEXCAPI.get_klines. cbv zeta. rewrite Hmiss.
    now rewrite (parse_klines_bad_row data row Hin Hrow). }
  split; [|split].
  - intros klines Hp.
    pose proof (parse_klines_rows data klines Hp) as Hrows.
    split; [|split; [|exact Hrows]].
    + unfold MEXCAPI.get_klines. cbv zeta. rewrite Hmiss.
      rewrite Hp. reflexivity.
    + symmetry. eapply Forall2_length. exact Hrows.
  - exact Hbad.
  - intros row Hin Hshort. apply (Hbad row Hin).
    now apply parse_kline_short_row.
Qed.

(** X21: the cache round trip.  After a call that found no usable cache
    file, parsed the API response and wrote the file, every later call for
    the same symbol, timeframe and limit returns those same klines and
    leaves the cache directory unchanged, whatever the API answers then
    (the cached klines are never refreshed). *)
Theorem X21_cache_round_trip
        (symbol timeframe : string) (limit : Z) (fs : MEXCAPI.filesystem)
        (data : list (list json)) (klines : list kline) :
  MEXCAPI.load_cache (MEXCAPI.cache_file symbol timeframe limit) fs = None ->
  parse_klines data = Some klines ->
  let first := get_klines symbol timeframe limit fs (Some data) MEXCAPI.Written in
  fst first = klines /\
  forall api w,
    get_klines symbol timeframe limit (snd first) api w = (klines, snd first).
Proof.
  intros Hmiss Hp first.
  assert (E : first = (klines,
                       MEXCAPI.fs_put (MEXCAPI.cache_file symbol timeframe limit)
                         (MEXCAPI.Pickled klines) fs)).
  { unfold first, MEXCAPI.get_klines. cbv zeta. rewrite Hmiss.
    rewrite Hp. reflexivity. }
  rewrite E. cbn [fst snd]. split; [reflexivity|].
  intros api w. unfold MEXCAPI.get_klines. cbv zeta.
  unfold MEXCAPI.load_cache at 1, MEXCAPI.fs_put at 1.
  rewrite String.eqb_refl. reflexivity.
Qed.

(** X22: a call touches at most its own cache file: every other path of the
    cache directory holds after the call what it held before; and a call
    that raises inside (failed request, unparsable response) or is served
    from the cache changes nothing at all. *)
Theorem X22_call_touches_only_its_cache_file
        (symbol timeframe : string) (limit : Z) (fs : MEXCAPI.filesystem)
        (api : option (list (list json))) (w : MEXCAPI.write_outcome) :
  (forall path,
      path <> MEXCAPI.cache_file symbol timeframe limit ->
      snd (get_klines symbol timeframe limit fs api w) path = fs path) /\
  (MEXCAPI.load_cache (MEXCAPI.cache_file symbol timeframe limit) fs <> None ->
   snd (get_klines symbol timeframe limit fs api w) = fs) /\
  (api = None ->
   snd (get_klines symbol timeframe limit fs api w) = fs).
Proof.
  unfold MEXCAPI.get_klines. cbv zeta.
  split; [|split].
  - intros path Hpath.
    destruct (MEXCAPI.load_cache _ fs); [reflexivity|].
    destruct api as [data|]; [|reflexivity].
    destruct (MEXCAPI.parse_klines json to_int to_float data); [|reflexivity].
    cbn [snd]. unfold MEXCAPI.save_cache, MEXCAPI.fs_put.
    destruct w; try reflexivity;
      destruct (String.eqb_spec path
                  (MEXCAPI.cache_file symbol timeframe limit));
      try contradiction; reflexivity.
  - intro H. destruct (MEXCAPI.load_cache _ fs); [reflexivity | contradiction].
  - intros ->. destruct (MEXCAPI.load_cache _ fs); reflexivity.
Qed.

End MexcProperties.

Lemma X20_witness :
  MEXCAPI.get_klines Fixtures.json Fixtures.to_int Fixtures.to_float
    "BTCUSDT" "1h" 30 Fixtures.empty_fs
    (Some [Fixtures.row 1 5; Fixtures.bad_row]) MEXCAPI.Written
  = ([], Fixtures.empty_fs).
Proof.
  assert (Hmiss : MEXCAPI.load_cache (MEXCAPI.cache_file "BTCUSDT" "1h" 30)
                    Fixtures.empty_fs = None) by reflexivity.
  destruct (X20_response_parsed_all_or_nothing Fixtures.json Fixtures.to_int
              Fixtures.to_float "BTCUSDT" "1h" 30 Fixtures.empty_fs
              [Fixtures.row 1 5; Fixtures.bad_row] MEXCAPI.Written Hmiss)
    as (_ & _ & Hshort).
  apply (Hshort Fixtures.bad_row).
  - right. left. reflexivity.
  - cbn. lia.
Defined.

Lemma X21_witness :
  let first :=
    MEXCAPI.get_klines Fixtures.json Fixtures.to_int Fixtures.to_float
      "BTCUSDT" "1h" 30 Fixtures.empty_fs
      (Some [Fixtures.row 1 5; Fixtures.row 2 6]) MEXCAPI.Written in
  MEXCAPI.get_klines Fixtures.json Fixtures.to_int Fixtures.to_float
    "BTCUSDT" "1h" 30 (snd first) (Some [Fixtures.row 3 7]) MEXCAPI.Written
  = ([mk_kline 1 5 5 5 5 1; mk_kline 2 6 6 6 6 1], snd first).
Proof.
  assert (Hmiss : MEXCAPI.load_cache (MEXCAPI.cache_file "BTCUSDT" "1h" 30)
                    Fixtures.empty_fs = None) by reflexivity.
  assert (Hp : MEXCAPI.parse_klines Fixtures.json Fixtures.to_int
                 Fixtures.to_float [Fixtures.row 1 5; Fixtures.row 2 6]
               = Some [mk_kline 1 5 5 5 5 1; mk_kline 2 6 6 6 6 1])
    by reflexivity.
  destruct (X21_cache_round_trip Fixtures.json Fixtures.to_int
              Fixtures.to_float "BTCUSDT" "1h" 30 Fixtures.empty_fs
              _ _ Hmiss Hp) as [_ Hlater].
  exact (Hlater (Some [Fixtures.row 3 7]) MEXCAPI.Written).
Defined.

Lemma X22_witness :
  snd (MEXCAPI.get_klines Fixtures.json Fixtures.to_int Fixtures.to_float
         "BTCUSDT" "1h" 30 Fixtures.empty_fs None MEXCAPI.Written)
  = Fixtures.empty_fs.
Proof.
  apply (X22_call_touches_only_its_cache_file Fixtures.json Fixtures.to_int
           Fixtures.to_float "BTCUSDT" "1h" 30 Fixtures.empty_fs None
           MEXCAPI.Written).
  reflexivity.
Defined.

(** ** MEXCAPI: the symbol list *)

Section SymbolList.

Variable json : Type.
Variable is_one : json -> bool.

Local Abbreviation select_symbol := (MEXCAPI.select_symbol json is_one).
Local Abbreviation collect_symbols := (MEXCAPI.collect_symbols json is_one).
Local Abbreviation get_symbols := (MEXCAPI.get_symbols json is_one).
Local Abbreviation listed := (MEXCAPI.listed json is_one).

Lemma select_symbol_kept (e : MEXCAPI.dict json) (s : json) :
  select_symbol e = Some (Some s) <-> listed e s.
Proof.
  unfold MEXCAPI.select_symbol, MEXCAPI.listed. split.
  - destruct (MEXCAPI.dict_get json e "status") as [st|]; [|discriminate].
    destruct (is_one st) eqn:E1; [|discriminate].
    destruct (MEXCAPI.dict_get json e "symbol") as [s'|]; [|discriminate].
    intro H. injection H as <-. exists st. auto.
  - intros (st & -> & -> & ->). reflexivity.
Qed.

Lemma collect_symbols_spec (entries : list (MEXCAPI.dict json)) (l : list json) :
  collect_symbols entries = Some l ->
  (forall s, In s l <-> exists e, In e entries /\ listed e s) /\
  (length l <= length entries)%nat.
Proof.
  revert l. induction entries as [|e rest IH]; intros l H.
  - cbn in H. injection H as <-. split; [|cbn; lia].
    intro s. split; [contradiction|]. intros (e & [] & _).
  - cbn in H.
    destruct (select_symbol e) as [kept|] eqn:Ek; [|discriminate].
    destruct (collect_symbols rest) as [l'|] eqn:El; [|discriminate].
    destruct (IH l' eq_refl) as [IHin IHlen].
    injection H as <-. destruct kept as [s0|].
    + split; [|cbn; lia]. intro s. split.
      * intros [<-|Hin].
        -- exists e. split; [left; reflexivity|].
           now apply select_symbol_kept.
        -- apply IHin in Hin. destruct Hin as (e' & He' & Hl).
           exists e'. split; [right; assumption | assumption].
      * intros (e' & [<-|He'] & Hl).
        -- apply select_symbol_kept in Hl. rewrite Ek in Hl.
           injection Hl as ->. left. reflexivity.
        -- right. apply IHin. now exists e'.
    + split; [|cbn; lia]. intro s. split.
      * intro Hin. apply IHin in Hin. destruct Hin as (e' & He' & Hl).
        exists e'. split; [right; assumption | assumption].
      * intros (e' & [<-|He'] & Hl).
        -- apply select_symbol_kept in Hl. rewrite Ek in Hl. discriminate.
        -- apply IHin. now exists e'.
Qed.

Lemma collect_symbols_bad_entry (entries : list (MEXCAPI.dict json))
      (e : MEXCAPI.dict json) :
  In e entries -> select_symbol e = None -> collect_symbols entries = None.
Proof.
  intros Hin Hbad. induction entries as [|e0 rest IH]; [contradiction|].
  cbn. destruct Hin as [->|Hin].
  - now rewrite Hbad.
  - destruct (select_symbol e0); [|reflexivity].
    now rewrite (IH Hin).
Qed.

(** X23: get_symbols returns symbols of listed entries only (status '1' and
    a 'symbol' key), at most one per entry; when every entry is well formed
    it returns the symbol of every listed entry; one entry without a
    'status' key, or with status '1' and no 'symbol' key, makes it return
    the empty list; so does a failed request. *)
Theorem X23_get_symbols (entries : list (MEXCAPI.dict json)) :
  (forall s, In s (get_symbols (Some entries)) ->
             exists e, In e entries /\ listed e s) /\
  (length (get_symbols (Some entries)) <= length entries)%nat /\
  (Forall (fun e => select_symbol e <> None) entries ->
   forall e s, In e entries -> listed e s -> In s (get_symbols (Some entries))) /\
  (forall e, In e entries -> MEXCAPI.dict_get json e "status" = None ->
             get_symbols (Some entries) = []) /\
  (forall e st, In e entries ->
                MEXCAPI.dict_get json e "status" = Some st ->
                is_one st = true ->
                MEXCAPI.dict_get json e "symbol" = None ->
                get_symbols (Some entries) = []) /\
  get_symbols None = [].
Proof.
  unfold MEXCAPI.get_symbols.
  destruct (collect_symbols entries) as [l|] eqn:E.
  - destruct (collect_symbols_spec entries l E) as [Hin Hlen].
    split; [intros s Hs; now apply Hin|]. split; [exact Hlen|].
    split; [intros _ e s He Hl; apply Hin; now exists e|].
    split; [|split; [|reflexivity]].
    + intros e He Hst.
      assert (Hbad : select_symbol e = None)
        by (unfold MEXCAPI.select_symbol; now rewrite Hst).
      rewrite (collect_symbols_bad_entry entries e He Hbad) in E. discriminate.
    + intros e st He Hst H1 Hsym.
      assert (Hbad : select_symbol e = None)
        by (unfold MEXCAPI.select_symbol; now rewrite Hst, H1, Hsym).
      rewrite (collect_symbols_bad_entry entries e He Hbad) in E. discriminate.
  - split; [intros s []|]. split; [cbn; lia|].
    split; [|split; [|split]]; try reflexivity.
    intros Hwf. exfalso. clear - E Hwf.
    induction entries as [|e0 rest IH]; [discriminate|].
    inversion Hwf as [|? ? H0 Hrest]; subst.
    cbn in E.
    destruct (select_symbol e0); [|contradiction].
    destruct (collect_symbols rest); [discriminate|]. now apply IH.
Qed.

End SymbolList.

Lemma X23_witness :
  MEXCAPI.get_symbols Fixtures.json Fixtures.is_one
    (Some [Fixtures.entry "BTCUSDT" "1";
           [("symbol"%string, Fixtures.JText "ETHUSDT")]])
  = [].
Proof.
  destruct (X23_get_symbols Fixtures.json Fixtures.is_one
              [Fixtures.entry "BTCUSDT" "1";
               [("symbol"%string, Fixtures.JText "ETHUSDT")]])
    as (_ & _ & _ & Hstatus & _).
  apply (Hstatus [("symbol"%string, Fixtures.JText "ETHUSDT")]).
  - right. left. reflexivity.
  - reflexivity.
Defined.

Example get_symbols_filters :
  MEXCAPI.get_symbols Fixtures.json Fixtures.is_one
    (Some [Fixtures.entry "BTCUSDT" "1"; Fixtures.entry "OLDCOIN" "2";
           Fixtures.entry "ETHUSDT" "1"])
  = [Fixtures.JText "BTCUSDT"; Fixtures.JText "ETHUSDT"].
Proof. reflexivity. Qed.

(** An empty API response is cached like any other: the next call returns
    the empty list from the cache and does not look at the API. *)
Example empty_response_is_cached :
  let first :=
    MEXCAPI.get_klines Fixtures.json Fixtures.to_int Fixtures.to_float
      "BTCUSDT" "1h" 30 Fixtures.empty_fs (Some []) MEXCAPI.Written in
  fst first = [] /\
  fst (MEXCAPI.get_klines Fixtures.json Fixtures.to_int Fixtures.to_float
         "BTCUSDT" "1h" 30 (snd first) (Some [Fixtures.row 1 5]) MEXCAPI.Written)
  = [].
Proof. split; reflexivity. Qed.

(** A dump that fails half way leaves a file that does not unpickle: the
    next call goes back to the API. *)
Example failed_dump_is_refetched :
  let first :=
    MEXCAPI.get_klines Fixtures.json Fixtures.to_int Fixtures.to_float
      "BTCUSDT" "1h" 30 Fixtures.empty_fs (Some [Fixtures.row 1 5])
      MEXCAPI.DumpFailed in
  fst (MEXCAPI.get_klines Fixtures.json Fixtures.to_int Fixtures.to_float
         "BTCUSDT" "1h" 30 (snd first) (Some [Fixtures.row 2 6]) MEXCAPI.Written)
  = [mk_kline 2 6 6 6 6 1].
Proof. reflexivity. Qed.
